(** * Goose Hacknight registration gateway

    A shallow embedding of the Express server (the revision with the
    registration flag, the paged key listing and the disable-all route)
    together with the properties its specification states about it.

    The server is sequential glue over three things it does not own: the
    config file on disk, the process environment and the OpenRouter key
    service.  Each of them is a component of an explicit world that the
    handlers thread through a small state-and-exception monad.  The
    [while (hasMore)] paging loops need not terminate against an arbitrary
    upstream, so they run on fuel and a computation that exhausts it is
    [Pending], an outcome no [try]/[catch] can intercept.

    The handlers are embedded over the [req.body] they are handed; the
    JSON body parser that stands in front of every route is embedded apart
    ([express_json]) and [server] is the two together.

    Left out: what the server writes to the console, the response headers
    (those of CORS among them), the listening socket and the
    [Authorization] header, which is the same on every upstream call. *)

From Stdlib Require Import List String Ascii Bool Arith ZArith Lia.
From Stdlib Require Import DecimalString.
Import ListNotations.
Local Open Scope string_scope.
Local Open Scope list_scope.

Set Implicit Arguments.
Local Set Warnings "-register-all".

(** ** JavaScript values

    The values that reach the server through [JSON.parse] (config file,
    request body, upstream payload fields) and leave it through [res.json].
    A number is carried as its canonical rendering ([Number::toString]);
    the server observes numbers of this kind only through truthiness and
    template literals. *)

Inductive jsvalue : Type :=
| JUndefined
| JNull
| JBool (b : bool)
| JNum (text : string)
| JStr (s : string)
| JArr (items : list jsvalue)
| JObj (fields : list (string * jsvalue)).

(** [!v] is [negb (truthy v)]. *)
Definition truthy (v : jsvalue) : bool :=
  match v with
  | JUndefined | JNull => false
  | JBool b => b
  | JNum text => negb (String.eqb text "0" || String.eqb text "NaN")
  | JStr s => negb (String.eqb s "")
  | JArr _ | JObj _ => true
  end.

Fixpoint own_property (p : string) (fields : list (string * jsvalue)) : jsvalue :=
  match fields with
  | [] => JUndefined
  | (k, v) :: rest => if String.eqb k p then v else own_property p rest
  end.

Fixpoint has_property (p : string) (fields : list (string * jsvalue)) : bool :=
  match fields with
  | [] => false
  | (k, _) :: rest => String.eqb k p || has_property p rest
  end.

(** [`${v}`]: the string a template literal interpolates, [None] when the
    conversion raises.  An object that came out of [JSON.parse] converts
    through [Object.prototype.toString] unless it has a [toString] property
    of its own, which is then not callable; an array joins its elements. *)
Fixpoint ToString (v : jsvalue) : option string :=
  match v with
  | JUndefined => Some "undefined"
  | JNull => Some "null"
  | JBool true => Some "true"
  | JBool false => Some "false"
  | JNum text => Some text
  | JStr s => Some s
  | JArr items =>
      option_map (String.concat ",")
        ((fix join (l : list jsvalue) : option (list string) :=
            match l with
            | [] => Some []
            | x :: rest =>
                match match x with
                      | JUndefined | JNull => Some ""
                      | _ => ToString x
                      end, join rest with
                | Some shown, Some others => Some (shown :: others)
                | _, _ => None
                end
            end) items)
  | JObj fields =>
      if has_property "toString" fields then None else Some "[object Object]"
  end.

(** What a client reads back from a body sent with [res.json]:
    [JSON.stringify] drops the properties whose value is [undefined] and
    turns an [undefined] array element into [null]. *)
Fixpoint wire (v : jsvalue) : jsvalue :=
  match v with
  | JArr items =>
      JArr (map (fun x => match x with
                          | JUndefined => JNull
                          | _ => wire x
                          end) items)
  | JObj fields =>
      JObj ((fix props (l : list (string * jsvalue)) : list (string * jsvalue) :=
               match l with
               | [] => []
               | (k, JUndefined) :: rest => props rest
               | (k, x) :: rest => (k, wire x) :: props rest
               end) fields)
  | _ => v
  end.

Definition is_boolean (v : jsvalue) : bool :=
  match v with JBool _ => true | _ => false end.

(** [`${n}`] for an array length. *)
Definition decimal (n : nat) : string := NilEmpty.string_of_uint (Nat.to_uint n).

(** [s.replace(pat, by)] with a string pattern: the first occurrence only. *)
Fixpoint replace_first (pat by_ s : string) : string :=
  if String.prefix pat s
  then by_ ++ String.substring (String.length pat) (String.length s - String.length pat) s
  else match s with
       | EmptyString => EmptyString
       | String c rest => String c (replace_first pat by_ rest)
       end.

(** ** Errors and outcomes *)

Inductive ErrorKind : Type := PlainError | TypeError | SyntaxError | SystemError | FetchError.

(** An exception, with the [message] a handler may copy into a 500 body.
    The texts of the errors the engine and the libraries raise follow V8 and
    node-fetch. *)
Record JsError : Type := mkError { kind : ErrorKind; message : string }.

Inductive Outcome (A : Type) : Type :=
| Return (a : A)
| Throw (e : JsError)
| Pending.

Arguments Throw {A} e.
Arguments Pending {A}.

Definition thrown {A : Type} (o : Outcome A) : bool :=
  match o with
  | Throw _ => true
  | _ => false
  end.

(** ** The key service as the server sees it *)

(** An item of the upstream listing. *)
Record Key : Type := mkKey {
  name : string;
  hash : string;
  label : string;
  limit : jsvalue;
  disabled : bool
}.

(** A listing item as it appears inside a body sent with [res.json]. *)
Definition key_value (k : Key) : jsvalue :=
  JObj [("name", JStr (name k)); ("hash", JStr (hash k)); ("label", JStr (label k));
        ("limit", limit k); ("disabled", JBool (disabled k))].

(** The four calls the server makes.  [GetKeys false o] is the URL
    [/keys?offset=o], [GetKeys true o] is
    [/keys?include_disabled=true&offset=o]. *)
Inductive Request : Type :=
| GetKeys (include_disabled : bool) (offset : nat)
| PostKey (name_ label_ : string) (limit_ : Z)
| DeleteKey (keyHash : string)
| PatchKey (keyHash : string) (disabled_ : bool).

(** The fields the server reads off a parsed response body. *)
Record Payload : Type := mkPayload {
  body_data : option (list Key);
  body_key : jsvalue;
  body_hash : jsvalue;
  body_limit : jsvalue;
  body_name : jsvalue;
  body_disabled : jsvalue;
  body_message : option string
}.

(** [data.data || []] *)
Definition data_or_empty (data : Payload) : list Key :=
  match body_data data with
  | Some l => l
  | None => []
  end.

(** [json = None]: the body is not JSON and [response.json()] rejects. *)
Record Response : Type := mkResponse {
  ok : bool;
  statusText : string;
  json : option Payload
}.

Inductive FetchResult : Type :=
| Rejected (reason : string)
| Responded (response : Response).

(** Any upstream, real or stub: a state and a deterministic reaction to
    each request. *)
Record Upstream : Type := mkUpstream {
  ustate : Type;
  serve : Request -> ustate -> FetchResult * ustate
}.

(** ** The config file

    The file at [config.json], up to what [fs.existsSync] and
    [JSON.parse (fs.readFileSync ...)] can tell about it. *)
Inductive ConfigFile : Type :=
| Missing
| Garbled (raw : string)
| Holds (config : jsvalue).

(** [process.env], the two variables the handlers below consult.
    [OPENROUTER_PRESET_CREDITS] is kept as what [parseInt] makes of it,
    [None] for [NaN]. *)
Record Env : Type := mkEnv {
  ADMIN_SECRET_TOKEN : option string;
  OPENROUTER_PRESET_CREDITS : option Z
}.

(** ** HTTP surface *)

(** A body is the JSON a handler passed to [res.json], or the page the
    framework's default error handler renders for an exception that escaped
    a handler. *)
Inductive ResBody : Type :=
| JsonBody (v : jsvalue)
| ErrorPage.

Record HttpRes : Type := mkRes { status : nat; body : ResBody }.

Inductive Route : Type :=
| Root
| RegistrationStatus
| Invite
| AdminKeys
| AdminDeleteAll
| AdminDisableAll.

Record HttpReq : Type := mkReq {
  route : Route;
  x_admin_token : option string;
  req_body : jsvalue
}.

(** ** The monad of handler code

    A computation runs in a world [W] and ends in one of three ways.  State
    changes made before a [Throw] persist, as they do in the program. *)

Definition M (W A : Type) : Type := W -> Outcome A * W.

Definition ret {W A : Type} (a : A) : M W A := fun w => (Return a, w).

Definition throw {W A : Type} (e : JsError) : M W A := fun w => (Throw e, w).

Definition pending {W A : Type} : M W A := fun w => (Pending, w).

Definition bind {W A B : Type} (c : M W A) (k : A -> M W B) : M W B :=
  fun w =>
    match c w with
    | (Return a, w') => k a w'
    | (Throw e, w') => (Throw e, w')
    | (Pending, w') => (Pending, w')
    end.

(** [try { c } catch (error) { handler }] *)
Definition try_catch {W A : Type} (c : M W A) (handler : JsError -> M W A) : M W A :=
  fun w =>
    match c w with
    | (Throw e, w') => handler e w'
    | r => r
    end.

Declare Scope js_scope.
Delimit Scope js_scope with js.
Notation "x <- c ;; k" := (bind c (fun x => k))
  (at level 61, c at next level, right associativity) : js_scope.
Notation "c ;;; k" := (bind c (fun _ => k))
  (at level 61, right associativity) : js_scope.

(** [Promise.all (tasks)] over tasks that are all started before any of them
    is awaited: every task runs, whatever became of the ones before it, and
    the aggregate rejects as soon as one task did.  The upstream is taken to
    serve the requests in the order they were issued, so the rejection that
    surfaces is the one of the first failing task in that order. *)
Fixpoint promise_all {W A : Type} (tasks : list (M W A)) : M W (list A) :=
  match tasks with
  | [] => ret []
  | task :: rest =>
      fun w =>
        let (first, w1) := task w in
        let (others, w2) := promise_all rest w1 in
        (match first, others with
         | Pending, _ => Pending
         | Throw e, Pending => Pending
         | Throw e, _ => Throw e
         | Return a, Return l => Return (a :: l)
         | Return a, Throw e => Throw e
         | Return a, Pending => Pending
         end, w2)
  end.

(** [v.p] for a property name that no prototype defines. *)
Definition get_property {W : Type} (v : jsvalue) (p : string) : M W jsvalue :=
  match v with
  | JUndefined =>
      throw (mkError TypeError ("Cannot read properties of undefined (reading '" ++ p ++ "')"))
  | JNull =>
      throw (mkError TypeError ("Cannot read properties of null (reading '" ++ p ++ "')"))
  | JObj fields => ret (own_property p fields)
  | _ => ret JUndefined
  end.

(** A template literal [`before${v}`]. *)
Definition interpolate {W : Type} (before : string) (v : jsvalue) : M W string :=
  match ToString v with
  | Some shown => ret (before ++ shown)%string
  | None => throw (mkError TypeError "Cannot convert object to primitive value")
  end.

Definition option_string_eqb (a b : option string) : bool :=
  match a, b with
  | Some x, Some y => String.eqb x y
  | None, None => true
  | _, _ => false
  end.

(** What [createOpenRouterKey] hands back to the invite handler. *)
Record KeyData : Type := mkKeyData {
  key : jsvalue;
  keyHash_ : jsvalue;
  limit_of : jsvalue;
  name_of : jsvalue;
  disabled_of : jsvalue
}.

(** [res.status (st).json (v)] *)
Definition res_json (st : nat) (v : jsvalue) : HttpRes := mkRes st (JsonBody (wire v)).

(** The page size both loops test against. *)
Definition PAGE : nat := 100.

Section Server.

Variable U : Upstream.
Variable env : Env.

Record World : Type := mkWorld {
  fs : ConfigFile;
  remote : ustate U;
  calls : list Request
}.

Local Open Scope js_scope.

(** *** Config store *)

Definition defaultConfig : jsvalue := JObj [("registrationEnabled", JBool false)].

Definition existsSync : M World bool :=
  fun w => (Return (match fs w with Missing => false | _ => true end), w).

(** [fs.writeFileSync (configPath, JSON.stringify (v, null, 2))]; the write
    is taken to succeed. *)
Definition writeFileSync (v : jsvalue) : M World unit :=
  fun w => (Return tt, mkWorld (Holds (wire v)) (remote w) (calls w)).

(** [JSON.parse (fs.readFileSync (configPath, 'utf8'))] *)
Definition readFileSync_parse : M World jsvalue :=
  fun w =>
    match fs w with
    | Missing => (Throw (mkError SystemError "ENOENT: no such file or directory"), w)
    | Garbled _ => (Throw (mkError SyntaxError "Unexpected token in JSON"), w)
    | Holds v => (Return v, w)
    end.

(** [function loadConfig ()]: whatever goes wrong inside ends in the
    default. *)
Definition loadConfig : M World jsvalue :=
  try_catch
    (present <- existsSync ;;
     if negb present
     then writeFileSync defaultConfig ;;; ret defaultConfig
     else config <- readFileSync_parse ;; ret config)
    (fun error => ret defaultConfig).

(** *** Key service client *)

(** [await fetch (url, options)]: the request is logged, the upstream moves
    on, and a transport failure surfaces as an exception. *)
Definition fetch (rq : Request) : M World Response :=
  fun w =>
    let (result, u') := serve U rq (remote w) in
    let w' := mkWorld (fs w) u' (calls w ++ [rq]) in
    match result with
    | Rejected reason => (Throw (mkError FetchError reason), w')
    | Responded response => (Return response, w')
    end.

(** [await response.json ()] *)
Definition response_json (response : Response) : M World Payload :=
  match json response with
  | Some data => ret data
  | None => throw (mkError SyntaxError "invalid json response body")
  end.

(** The [while (hasMore)] loop of [checkExistingEmail] and of [listKeys]:
    the two are the same statement for statement and differ in the URL and
    in the text of the error. *)
Fixpoint fetch_pages (include_disabled : bool) (failure : string)
    (fuel offset : nat) (allKeys : list Key) : M World (list Key) :=
  match fuel with
  | O => pending
  | S fuel' =>
      response <- fetch (GetKeys include_disabled offset) ;;
      if negb (ok response)
      then throw (mkError PlainError (failure ++ statusText response))
      else
        data <- response_json response ;;
        let keys := data_or_empty data in
        let allKeys := allKeys ++ keys in
        if Nat.ltb (List.length keys) PAGE
        then ret allKeys
        else fetch_pages include_disabled failure fuel' (offset + PAGE) allKeys
  end.

(** [async function checkExistingEmail (email)]: the listing is fetched
    first, the expected name is built after it. *)
Definition checkExistingEmail (fuel : nat) (email : jsvalue) : M World bool :=
  try_catch
    (allKeys <- fetch_pages false "Failed to fetch keys: " fuel 0 [] ;;
     expectedName <- interpolate "Goose Hacknight - " email ;;
     ret (existsb (fun key => String.eqb (name key) expectedName) allKeys))
    (fun error => throw error).

(** [parseInt (process.env.OPENROUTER_PRESET_CREDITS) || 5] *)
Definition credit_limit : Z :=
  match OPENROUTER_PRESET_CREDITS env with
  | Some n => if Z.eqb n 0 then 5%Z else n
  | None => 5%Z
  end.

(** [async function createOpenRouterKey (email)]: the request body is
    evaluated, [name] before [label], before anything is sent. *)
Definition createOpenRouterKey (email : jsvalue) : M World KeyData :=
  try_catch
    (name_ <- interpolate "Goose Hacknight - " email ;;
     label_ <- match email with
               | JStr s => ret (replace_first "@" "-at-" s)
               | _ => throw (mkError TypeError "email.replace is not a function")
               end ;;
     response <- fetch (PostKey name_ label_ credit_limit) ;;
     if negb (ok response)
     then
       error <- response_json response ;;
       throw (mkError PlainError
                (match body_message error with
                 | Some m =>
                     if String.eqb m ""
                     then "Failed to create OpenRouter API key: " ++ statusText response
                     else m
                 | None => "Failed to create OpenRouter API key: " ++ statusText response
                 end))
     else
       data <- response_json response ;;
       ret (mkKeyData (body_key data) (body_hash data) (body_limit data)
              (body_name data) (body_disabled data)))
    (fun error => throw error).

(** [async function listKeys ()]; the result is the [data] of the object it
    returns. *)
Definition listKeys (fuel : nat) : M World (list Key) :=
  try_catch
    (fetch_pages true "Failed to list keys: " fuel 0 [])
    (fun error => throw error).

(** [async function deleteKey (keyHash)] *)
Definition deleteKey (keyHash : string) : M World bool :=
  try_catch
    (response <- fetch (DeleteKey keyHash) ;;
     if negb (ok response)
     then throw (mkError PlainError ("Failed to delete key: " ++ statusText response))
     else ret true)
    (fun error => throw error).

(** [async function disableKey (keyHash)] *)
Definition disableKey (keyHash : string) : M World Payload :=
  try_catch
    (response <- fetch (PatchKey keyHash true) ;;
     if negb (ok response)
     then throw (mkError PlainError ("Failed to disable key: " ++ statusText response))
     else data <- response_json response ;; ret data)
    (fun error => throw error).

(** *** Routes *)

(** The [adminAuth] middleware: [next] is the handler behind it. *)
Definition adminAuth (req : HttpReq) (next : M World HttpRes) : M World HttpRes :=
  let adminToken := x_admin_token req in
  if negb (option_string_eqb adminToken (ADMIN_SECRET_TOKEN env))
  then ret (res_json 401 (JObj [("success", JBool false);
                                ("message", JStr "Unauthorized access")]))
  else next.

(** [app.get ('/', ...)] *)
Definition root : M World HttpRes :=
  ret (res_json 200 (JObj [("message", JStr "Goose Hacknight API is running")])).

(** [app.get ('/api/registration-status', ...)], a synchronous handler with
    no [try] of its own. *)
Definition registration_status : M World HttpRes :=
  config <- loadConfig ;;
  registrationEnabled <- get_property config "registrationEnabled" ;;
  ret (res_json 200 (JObj [("registrationEnabled", registrationEnabled)])).

(** [app.post ('/api/invite', ...)].  The [console.log] of the address is
    kept for the string conversion it performs; its text is dropped. *)
Definition invite (fuel : nat) (req : HttpReq) : M World HttpRes :=
  try_catch
    (config <- loadConfig ;;
     registrationEnabled <- get_property config "registrationEnabled" ;;
     if negb (truthy registrationEnabled)
     then ret (res_json 403 (JObj [("success", JBool false);
                                   ("message", JStr "Registration is currently closed")]))
     else
       email <- get_property (req_body req) "email" ;;
       if negb (truthy email)
       then ret (res_json 400 (JObj [("success", JBool false);
                                     ("message", JStr "Email is required")]))
       else
         interpolate "Processing registration for " email ;;;
         exists_ <- checkExistingEmail fuel email ;;
         if (exists_ : bool)
         then ret (res_json 400
                     (JObj [("success", JBool false);
                            ("message",
                             JStr "This email has already been registered for the hackathon.")]))
         else
           keyData <- createOpenRouterKey email ;;
           ret (res_json 200
                  (JObj [("success", JBool true);
                         ("apiKey", key keyData);
                         ("keyHash", keyHash_ keyData);
                         ("limit", limit_of keyData);
                         ("name", name_of keyData);
                         ("disabled", disabled_of keyData);
                         ("message",
                          JStr "Your OpenRouter API key has been created successfully.")])))
    (fun error =>
       ret (res_json 500 (JObj [("success", JBool false);
                                ("message", JStr "Failed to create API key");
                                ("error", JStr (message error))]))).

(** [app.get ('/api/admin/keys', adminAuth, ...)] *)
Definition admin_keys (fuel : nat) : M World HttpRes :=
  try_catch
    (keys <- listKeys fuel ;;
     ret (res_json 200 (JObj [("data", JArr (map key_value keys))])))
    (fun error =>
       ret (res_json 500 (JObj [("success", JBool false);
                                ("message", JStr "Failed to list keys");
                                ("error", JStr (message error))]))).

(** [app.post ('/api/admin/keys/delete-all', adminAuth, ...)] *)
Definition delete_all (fuel : nat) : M World HttpRes :=
  try_catch
    (keys <- listKeys fuel ;;
     promise_all (map (fun key => deleteKey (hash key)) keys) ;;;
     ret (res_json 200
            (JObj [("success", JBool true);
                   ("message",
                    JStr ("Successfully deleted " ++ decimal (List.length keys) ++ " keys"))])))
    (fun error =>
       ret (res_json 500 (JObj [("success", JBool false);
                                ("message", JStr "Failed to delete keys");
                                ("error", JStr (message error))]))).

(** One element of the [keys.map (async (key) => ...)] of disable-all. *)
Definition disable_one (key : Key) : M World Key :=
  try_catch
    (result <- disableKey (hash key) ;;
     ret (mkKey (name key) (hash key) (label key) (limit key) true))
    (fun error => ret key).

(** [app.post ('/api/admin/keys/disable-all', adminAuth, ...)] *)
Definition disable_all (fuel : nat) : M World HttpRes :=
  try_catch
    (keys <- listKeys fuel ;;
     disabledKeys <- promise_all (map disable_one keys) ;;
     updatedKeys <- listKeys fuel ;;
     ret (res_json 200
            (JObj [("success", JBool true);
                   ("message",
                    JStr ("Successfully processed " ++ decimal (List.length keys) ++ " keys"));
                   ("data", JArr (map key_value updatedKeys))])))
    (fun error =>
       ret (res_json 500 (JObj [("success", JBool false);
                                ("message", JStr "Failed to disable keys");
                                ("error", JStr (message error))]))).

(** The routing table, for a request whose body the parser has let
    through. *)
Definition app (fuel : nat) (req : HttpReq) : M World HttpRes :=
  match route req with
  | Root => root
  | RegistrationStatus => registration_status
  | Invite => invite fuel req
  | AdminKeys => adminAuth req (admin_keys fuel)
  | AdminDeleteAll => adminAuth req (delete_all fuel)
  | AdminDisableAll => adminAuth req (disable_all fuel)
  end.

(** What the client observes: the response, if one was sent within the
    fuel, and the world left behind.  An exception that escapes a handler
    reaches the framework's default error handler. *)
Definition respond (fuel : nat) (req : HttpReq) (w : World) : option HttpRes * World :=
  match app fuel req w with
  | (Return res, w') => (Some res, w')
  | (Throw _, w') => (Some (mkRes 500 ErrorPage), w')
  | (Pending, w') => (None, w')
  end.

End Server.

Arguments mkWorld {U} fs remote calls.

(** ** Upstreams to run the server against *)

(** A stub that plays back a script: the n-th request, whatever it is,
    gets the n-th scripted result. *)
Module Scripted.

Definition step (rq : Request) (script : list FetchResult) : FetchResult * list FetchResult :=
  match script with
  | [] => (Rejected "script exhausted", [])
  | r :: rest => (r, rest)
  end.

Definition upstream : Upstream := mkUpstream step.

Definition empty_payload : Payload :=
  mkPayload None JUndefined JUndefined JUndefined JUndefined JUndefined None.

Definition page (keys : list Key) : FetchResult :=
  Responded (mkResponse true "OK"
               (Some (mkPayload (Some keys) JUndefined JUndefined JUndefined
                        JUndefined JUndefined None))).

Definition success : FetchResult := Responded (mkResponse true "OK" (Some empty_payload)).

Definition failure (text : string) : FetchResult :=
  Responded (mkResponse false text (Some empty_payload)).

End Scripted.

(** A reference model of the key service, from the provider's contract as
  the server relies on it: keys are kept in creation order; a listing
  returns at most [PAGE] keys from [offset] on and leaves disabled keys
  out unless [include_disabled] is set; creation stores a key under the
  requested name and answers with its one-time secret. *)
Module KeyService.

Record State : Type := mkState { keys : list Key; minted : nat }.

Definition listed (include_disabled : bool) (k : Key) : bool :=
  include_disabled || negb (disabled k).

(** The keys a listing ranges over. *)
Definition visible (include_disabled : bool) (st : State) : list Key :=
  filter (listed include_disabled) (keys st).

Definition page (include_disabled : bool) (offset : nat) (st : State) : list Key :=
  firstn PAGE (skipn offset (visible include_disabled st)).

Definition answer (st : string) (data : Payload) : FetchResult :=
  Responded (mkResponse true st (Some data)).

Definition not_found : FetchResult :=
  Responded (mkResponse false "Not Found"
               (Some (mkPayload None JUndefined JUndefined JUndefined JUndefined
                        JUndefined (Some "Key not found")))).

Definition known (h : string) (st : State) : bool :=
  existsb (fun k => String.eqb (hash k) h) (keys st).

Definition step (rq : Request) (st : State) : FetchResult * State :=
  match rq with
  | GetKeys include_disabled offset =>
      (answer "OK"
         (mkPayload (Some (page include_disabled offset st)) JUndefined JUndefined
            JUndefined JUndefined JUndefined None),
       st)
  | PostKey n l lim =>
      let h := ("hash-" ++ decimal (minted st))%string in
      let quota := JNum (NilEmpty.string_of_int (Z.to_int lim)) in
      (answer "Created"
         (mkPayload None (JStr ("sk-or-v1-" ++ decimal (minted st))) (JStr h) quota
            (JStr n) (JBool false) None),
       mkState (keys st ++ [mkKey n h l quota false]) (S (minted st)))
  | DeleteKey h =>
      if known h st
      then (answer "OK" (mkPayload None JUndefined JUndefined JUndefined JUndefined
                           JUndefined None),
            mkState (filter (fun k => negb (String.eqb (hash k) h)) (keys st)) (minted st))
      else (not_found, st)
  | PatchKey h d =>
      if known h st
      then (answer "OK" (mkPayload None JUndefined (JStr h) JUndefined JUndefined
                           (JBool d) None),
            mkState (map (fun k => if String.eqb (hash k) h
                                   then mkKey (name k) (hash k) (label k) (limit k) d
                                   else k) (keys st)) (minted st))
      else (not_found, st)
  end.

Definition upstream : Upstream := mkUpstream step.

(** The keys provisioned for an email. *)
Definition keys_of_email (email : string) (st : State) : list Key :=
  filter (fun k => String.eqb (name k) ("Goose Hacknight - " ++ email)) (keys st).

(** No key has been disabled. *)
Definition all_enabled (st : State) : Prop :=
  forall k, In k (keys st) -> disabled k = false.

(** At most one provisioned key per email. *)
Definition one_key_per_email (st : State) : Prop :=
  forall email, (List.length (keys_of_email email st) <= 1)%nat.

End KeyService.

(** ** Vocabulary of the statements *)

(** The offsets of [n] successive pages, from [offset] on. *)
Fixpoint offsets (offset n : nat) : list nat :=
  match n with
  | O => []
  | S n' => offset :: offsets (offset + PAGE) n'
  end.

Definition succeeded (r : FetchResult) : bool :=
  match r with
  | Responded response => ok response
  | Rejected _ => false
  end.

(** The error [deleteKey] throws on a result that is not a success. *)
Definition delete_failure (r : FetchResult) : JsError :=
  match r with
  | Responded response =>
      mkError PlainError ("Failed to delete key: " ++ statusText response)
  | Rejected reason => mkError FetchError reason
  end.

(** The request each bulk route sends for one key. *)
Definition deletion (k : Key) : Request := DeleteKey (hash k).

Definition disabling (k : Key) : Request := PatchKey (hash k) true.

(** The handler behind the admin guard of a route. *)
Definition guarded (U : Upstream) (r : Route) (fuel : nat) : M (World U) HttpRes :=
  match r with
  | AdminKeys => admin_keys fuel
  | AdminDeleteAll => delete_all fuel
  | AdminDisableAll => disable_all fuel
  | _ => @root U
  end.

(** A series of requests handled one after the other; the world each one
    leaves is the world the next one finds. *)
Fixpoint handle_all (U : Upstream) (env : Env) (fuel : nat) (reqs : list HttpReq)
    (w : World U) : World U :=
  match reqs with
  | [] => w
  | req :: rest => handle_all env fuel rest (snd (respond env fuel req w))
  end.

Definition is_admin_route (r : Route) : bool :=
  match r with
  | AdminKeys | AdminDeleteAll | AdminDisableAll => true
  | _ => false
  end.

(** Does a response carry a JSON object with a boolean [registrationEnabled]? *)
Definition reports_boolean_flag (res : option HttpRes) : bool :=
  match res with
  | Some (mkRes _ (JsonBody (JObj fields))) =>
      has_property "registrationEnabled" fields
      && is_boolean (own_property "registrationEnabled" fields)
  | _ => false
  end.

Definition is_listing (rq : Request) : bool :=
  match rq with GetKeys _ _ => true | _ => false end.

Definition is_creation (rq : Request) : bool :=
  match rq with PostKey _ _ _ => true | _ => false end.

Section Observations.

Variable U : Upstream.

(** From state [u], successive listing requests at [offset],
    [offset + PAGE], ... are answered with the given pages, one each, and
    leave the upstream in [u_end]. *)
Fixpoint answers (include_disabled : bool) (offset : nat) (pages : list (list Key))
    (u u_end : ustate U) : Prop :=
  match pages with
  | [] => u = u_end
  | p :: rest =>
      exists response data u1,
        serve U (GetKeys include_disabled offset) u = (Responded response, u1)
        /\ ok response = true
        /\ json response = Some data
        /\ data_or_empty data = p
        /\ answers include_disabled (offset + PAGE) rest u1 u_end
  end.

(** The results of a batch of requests served one after the other, and the
    state they leave. *)
Fixpoint served (rqs : list Request) (u : ustate U) : list FetchResult * ustate U :=
  match rqs with
  | [] => ([], u)
  | rq :: rest =>
      let (r, u1) := serve U rq u in
      let (rs, u2) := served rest u1 in
      (r :: rs, u2)
  end.

End Observations.

(** ** Sample worlds

    Concrete environments, requests and upstream states on which the
    statements below are run. *)
Module Sample.

Definition env : Env := mkEnv (Some "s3cret") None.

Definition flag (b : bool) : ConfigFile := Holds (JObj [("registrationEnabled", JBool b)]).

Definition ada : string := "ada@example.org".

Definition key_of (email h : string) (d : bool) : Key :=
  mkKey ("Goose Hacknight - " ++ email) h (replace_first "@" "-at-" email) (JNum "5") d.

Definition service (l : list Key) : KeyService.State := KeyService.mkState l (List.length l).

(** A deployment in front of the reference key service. *)
Definition deployed (file : ConfigFile) (l : list Key) : World KeyService.upstream :=
  mkWorld (U := KeyService.upstream) file (service l) [].

(** A deployment in front of a scripted stub. *)
Definition stubbed (file : ConfigFile) (script : list FetchResult) : World Scripted.upstream :=
  mkWorld (U := Scripted.upstream) file script [].

Definition invite_of (email : string) : HttpReq :=
  mkReq Invite None (JObj [("email", JStr email)]).

Definition admin (r : Route) (token : option string) : HttpReq := mkReq r token JNull.

Definition batch (n : nat) : list Key := repeat (key_of "bob@example.org" "hash-b" false) n.

Definition k1 : Key := key_of "ada@example.org" "hash-0" false.

Definition k2 : Key := key_of "bob@example.org" "hash-1" false.

End Sample.

(** ** The earlier revision of the config store

    Before the existence check was added, [loadConfig] was a bare
    [JSON.parse (fs.readFileSync (configPath, 'utf8'))] under the same
    [catch]. *)
Module Earlier.

Definition loadConfig (U : Upstream) : M (World U) jsvalue :=
  try_catch
    (config <- @readFileSync_parse U ;; ret config)%js
    (fun error => ret defaultConfig).

(** Before the paging loop was added, [listKeys] was one request for the
    bare URL [/keys], with no query, and returned the parsed body as it
    came.  [bare] stands for that request. *)
Definition listKeys (U : Upstream) (bare : Request) : M (World U) Payload :=
  try_catch
    (response <- fetch bare ;;
     if negb (ok response)
     then throw (mkError PlainError ("Failed to list keys: " ++ statusText response))
     else response_json response)%js
    (fun error => throw error).

(** [app.post ('/api/admin/keys/delete-all', adminAuth, ...)] over that
    [listKeys]: [(await listKeys ()).data] may be [undefined], on which
    [keys.map] raises. *)
Definition delete_all (U : Upstream) (bare : Request) : M (World U) HttpRes :=
  try_catch
    (listing <- listKeys bare ;;
     keys <- match body_data listing with
             | Some keys => ret keys
             | None =>
                 throw (mkError TypeError
                          "Cannot read properties of undefined (reading 'map')")
             end ;;
     promise_all (map (fun key => @deleteKey U (hash key)) keys) ;;;
     ret (res_json 200
            (JObj [("success", JBool true);
                   ("message",
                    JStr ("Successfully deleted " ++ decimal (List.length keys) ++ " keys"))])))%js
    (fun error =>
       ret (res_json 500 (JObj [("success", JBool false);
                                ("message", JStr "Failed to delete keys");
                                ("error", JStr (message error))]))).

End Earlier.

(** An upstream that answers every request with the same full page. *)
Module Endless.

Definition full_page : list Key :=
  repeat (mkKey "Goose Hacknight - eve@example.org" "hash-e" "eve-at-example.org"
            (JNum "5") false) PAGE.

Definition step (rq : Request) (st : unit) : FetchResult * unit :=
  (Responded (mkResponse true "OK"
                (Some (mkPayload (Some full_page) JUndefined JUndefined JUndefined
                         JUndefined JUndefined None))),
   st).

Definition upstream : Upstream := mkUpstream step.

End Endless.

(** ** More vocabulary *)

Definition has_status (n : nat) (res : option HttpRes) : bool :=
  match res with
  | Some r => Nat.eqb (status r) n
  | None => false
  end.

Definition is_object (v : jsvalue) : bool :=
  match v with JObj _ => true | _ => false end.

(** Does the string contain the character? *)
Fixpoint mentions (c : ascii) (s : string) : bool :=
  match s with
  | EmptyString => false
  | String c' rest => Ascii.eqb c' c || mentions c rest
  end.

(** No key is left enabled. *)
Definition all_disabled (st : KeyService.State) : Prop :=
  forall k, In k (KeyService.keys st) -> disabled k = true.

(** [{...key, disabled: true}] *)
Definition disabled_copy (k : Key) : Key :=
  mkKey (name k) (hash k) (label k) (limit k) true.

(** The reference service after it has served one creation request. *)
Definition created (st : KeyService.State) (n l : string) (lim : Z) : KeyService.State :=
  snd (KeyService.step (PostKey n l lim) st).

(** ** The middleware in front of the routes

    [app.use (cors ())] and [app.use (express.json ())] run before every
    route.  For the methods the routes are registered under, [cors] adds
    response headers and passes the request on.  The JSON body parser
    decides what a handler finds in [req.body], and ends the request itself
    when it refuses the body: the error it raises goes to the framework's
    default error handler, which answers with the status of the error and
    the error page. *)

(** The body of an incoming request, up to what the parser can tell about
    it: there is none for it to read (no body, or a [Content-Type] other
    than [application/json]), it exceeds the limit of 100kb, or it is text,
    carried as what [JSON.parse] makes of it, [None] where that raises. *)
Inductive Entity : Type :=
| NoEntity
| Oversized
| Text (parsed : option jsvalue).

(** A request as it arrives. *)
Record Incoming : Type := mkIncoming {
  target : Route;
  admin_token : option string;
  entity : Entity
}.

(** The parser's strict mode, its default: objects and arrays only. *)
Definition strict (v : jsvalue) : bool :=
  match v with
  | JObj _ | JArr _ => true
  | _ => false
  end.

(** [express.json ()] with no options: the [req.body] the route will see,
    or the answer that ends the request.  A request the parser does not
    read goes on with the empty object for a body: so it is in Express 4,
    the version whose router accepts the [*] route of the first revision. *)
Definition express_json (e : Entity) : HttpRes + jsvalue :=
  match e with
  | NoEntity => inr (JObj [])
  | Oversized => inl (mkRes 413 ErrorPage)
  | Text None => inl (mkRes 400 ErrorPage)
  | Text (Some v) => if strict v then inr v else inl (mkRes 400 ErrorPage)
  end.

(** The middleware, then the routing table. *)
Definition server (U : Upstream) (env : Env) (fuel : nat) (m : Incoming) (w : World U)
    : option HttpRes * World U :=
  match express_json (entity m) with
  | inl refusal => (Some refusal, w)
  | inr parsed => respond env fuel (mkReq (target m) (admin_token m) parsed) w
  end.

(** ** Transport failures

    The URL each call is sent to, and the rejection node-fetch raises when
    the connection fails for the system reason [cause]: its message quotes
    the URL of the request. *)
Definition url (rq : Request) : string :=
  match rq with
  | GetKeys false offset =>
      "https://openrouter.ai/api/v1/keys?offset=" ++ decimal offset
  | GetKeys true offset =>
      "https://openrouter.ai/api/v1/keys?include_disabled=true&offset=" ++ decimal offset
  | PostKey _ _ _ => "https://openrouter.ai/api/v1/keys"
  | DeleteKey keyHash => "https://openrouter.ai/api/v1/keys/" ++ keyHash
  | PatchKey keyHash _ => "https://openrouter.ai/api/v1/keys/" ++ keyHash
  end.

Definition transport_failure (rq : Request) (cause : string) : FetchResult :=
  Rejected ("request to " ++ url rq ++ " failed, reason: " ++ cause).

(** Does [hay] contain [needle]? *)
Fixpoint occurs (needle hay : string) : bool :=
  String.prefix needle hay
  || match hay with
     | EmptyString => false
     | String _ rest => occurs needle rest
     end.

(** * Properties *)

Section Properties.

Variable U : Upstream.
Variable env : Env.

Implicit Types (w : World U) (fuel : nat) (req : HttpReq).

(** ** Monad plumbing *)

Lemma try_rethrow (A : Type) (c : M (World U) A) w :
  try_catch c (fun error => throw error) w = c w.
Proof.
  unfold try_catch, throw.
  destruct (c w) as [[a | e | ] w']; reflexivity.
Qed.

(** ** Config store *)

Lemma loadConfig_missing w :
  fs w = Missing ->
  loadConfig w = (Return (defaultConfig), mkWorld (Holds defaultConfig) (remote w) (calls w)).
Proof.
  destruct w as [file u tr]; cbn [fs]; intros ->. reflexivity.
Qed.

Lemma loadConfig_garbled w raw :
  fs w = Garbled raw -> loadConfig w = (Return defaultConfig, w).
Proof.
  destruct w as [file u tr]; cbn [fs]; intros ->. reflexivity.
Qed.

Lemma loadConfig_holds w v :
  fs w = Holds v -> loadConfig w = (Return v, w).
Proof.
  destruct w as [file u tr]; cbn [fs]; intros ->. reflexivity.
Qed.

(** Loading the config always returns, and touches nothing but the file. *)
Lemma loadConfig_returns w :
  exists config file,
    loadConfig w = (Return config, mkWorld file (remote w) (calls w)).
Proof.
  destruct w as [file u tr]; destruct file as [ | raw | v ].
  - eexists _, _. apply loadConfig_missing. reflexivity.
  - eexists _, _. apply (loadConfig_garbled _ (raw := raw)). reflexivity.
  - eexists _, _. apply loadConfig_holds. reflexivity.
Qed.

(** C7. Loading the config is total over the states of the file: it
    returns a config and changes nothing but the file.  On a missing file
    it writes the default [{registrationEnabled: false}] and returns it; on
    a file that does not parse it returns the same default and raises
    nothing.  Hence a status request on a missing file is answered
    [{registrationEnabled: false}] and leaves the default file behind. *)
Theorem loadConfig_total w fuel token payload :
  (exists config file,
      loadConfig w = (Return config, mkWorld file (remote w) (calls w)))
  /\ (fs w = Missing ->
      loadConfig w
      = (Return (JObj [("registrationEnabled", JBool false)]),
         mkWorld (Holds (JObj [("registrationEnabled", JBool false)])) (remote w) (calls w)))
  /\ (forall raw, fs w = Garbled raw ->
      loadConfig w = (Return (JObj [("registrationEnabled", JBool false)]), w))
  /\ (fs w = Missing ->
      respond env fuel (mkReq RegistrationStatus token payload) w
      = (Some (mkRes 200 (JsonBody (JObj [("registrationEnabled", JBool false)]))),
         mkWorld (Holds (JObj [("registrationEnabled", JBool false)])) (remote w) (calls w))).
Proof.
  split; [apply loadConfig_returns | ].
  split; [apply loadConfig_missing | ].
  split; [intros raw; apply loadConfig_garbled | ].
  intros Hfs.
  unfold respond, app; cbn [route].
  unfold registration_status, bind.
  rewrite (loadConfig_missing _ Hfs). reflexivity.
Qed.

(** C10, as amended.  The status route echoes what the config store
    loaded.  On a missing or unparseable file the body is
    [{registrationEnabled: false}]; on a file holding an object the body
    carries the stored value of the field as it is, so it is a boolean
    exactly when the file stores a boolean there. *)
Theorem registration_status_echoes w fuel token payload :
  (fs w = Missing \/ (exists raw, fs w = Garbled raw) ->
     fst (respond env fuel (mkReq RegistrationStatus token payload) w)
     = Some (mkRes 200 (JsonBody (JObj [("registrationEnabled", JBool false)]))))
  /\ (forall fields, fs w = Holds (JObj fields) ->
      respond env fuel (mkReq RegistrationStatus token payload) w
      = (Some (res_json 200
                 (JObj [("registrationEnabled", own_property "registrationEnabled" fields)])),
         w))
  /\ (forall fields b,
      fs w = Holds (JObj fields) ->
      own_property "registrationEnabled" fields = JBool b ->
      respond env fuel (mkReq RegistrationStatus token payload) w
      = (Some (mkRes 200 (JsonBody (JObj [("registrationEnabled", JBool b)]))), w)).
Proof.
  assert (Hobj : forall fields, fs w = Holds (JObj fields) ->
            respond env fuel (mkReq RegistrationStatus token payload) w
            = (Some (res_json 200
                       (JObj [("registrationEnabled",
                               own_property "registrationEnabled" fields)])), w)).
  { intros fields Hfs. unfold respond, app; cbn [route].
    unfold registration_status, bind.
    rewrite (loadConfig_holds _ Hfs). reflexivity. }
  split; [ | split; [exact Hobj | ] ].
  - intros [Hfs | [raw Hfs]]; unfold respond, app; cbn [route];
      unfold registration_status, bind.
    + rewrite (loadConfig_missing _ Hfs). reflexivity.
    + rewrite (loadConfig_garbled _ Hfs). reflexivity.
  - intros fields b Hfs Hb. rewrite (Hobj fields Hfs), Hb. reflexivity.
Qed.

(** What the parser lets through reaches the routing table with the parsed
    body; what it refuses is answered on the spot. *)
Lemma server_passes w fuel (m : Incoming) parsed :
  express_json (entity m) = inr parsed ->
  server env fuel m w = respond env fuel (mkReq (target m) (admin_token m) parsed) w.
Proof.
  intros Hparsed. unfold server. rewrite Hparsed. reflexivity.
Qed.

Lemma server_refuses w fuel (m : Incoming) refusal :
  express_json (entity m) = inl refusal ->
  server env fuel m w = (Some refusal, w).
Proof.
  intros Hrefused. unfold server. rewrite Hrefused. reflexivity.
Qed.

(** The closed gate of the invite handler, for the body it is handed. *)
Lemma invite_closed_handler w fuel req fields w1 :
  route req = Invite ->
  loadConfig w = (Return (JObj fields), w1) ->
  own_property "registrationEnabled" fields = JBool false ->
  respond env fuel req w
  = (Some (mkRes 403 (JsonBody (JObj [("success", JBool false);
                                      ("message", JStr "Registration is currently closed")]))),
     w1)
  /\ calls w1 = calls w
  /\ remote w1 = remote w.
Proof.
  intros Hroute Hload Hflag. split.
  - unfold respond, app. rewrite Hroute.
    unfold invite, try_catch, bind. rewrite Hload.
    cbn [get_property ret]. rewrite Hflag. reflexivity.
  - destruct (loadConfig_returns w) as (config & file & Hrun).
    rewrite Hrun in Hload. inversion Hload; subst. split; reflexivity.
Qed.

(** C1, as amended.  Whenever the config the handler loads says
    [registrationEnabled: false], an invite is answered 403 with the fixed
    closed-registration message for every body the JSON parser lets
    through, whatever that body holds; a body the parser refuses is
    answered by the parser, 400 or 413, and the handler does not run.
    Either way the key service is not contacted: no listing, no
    creation. *)
Theorem invite_closed w fuel (m : Incoming) fields w1 :
  target m = Invite ->
  loadConfig w = (Return (JObj fields), w1) ->
  own_property "registrationEnabled" fields = JBool false ->
  (forall parsed,
      express_json (entity m) = inr parsed ->
      server env fuel m w
      = (Some (mkRes 403
                 (JsonBody (JObj [("success", JBool false);
                                  ("message", JStr "Registration is currently closed")]))),
         w1))
  /\ (forall refusal,
        express_json (entity m) = inl refusal ->
        server env fuel m w = (Some refusal, w))
  /\ calls w1 = calls w
  /\ remote w1 = remote w
  /\ calls (snd (server env fuel m w)) = calls w
  /\ remote (snd (server env fuel m w)) = remote w.
Proof.
  intros Htarget Hload Hflag.
  assert (Hhandler : forall parsed,
             respond env fuel (mkReq (target m) (admin_token m) parsed) w
             = (Some (mkRes 403
                        (JsonBody
                           (JObj [("success", JBool false);
                                  ("message", JStr "Registration is currently closed")]))),
                w1)
             /\ calls w1 = calls w /\ remote w1 = remote w).
  { intros parsed.
    apply (@invite_closed_handler w fuel (mkReq (target m) (admin_token m) parsed) fields w1);
      assumption. }
  split; [ | split ].
  - intros parsed Hparsed. rewrite (server_passes w fuel m Hparsed).
    exact (proj1 (Hhandler parsed)).
  - intros refusal Hrefused. exact (server_refuses w fuel m Hrefused).
  - destruct (Hhandler JNull) as (_ & Hcalls & Hremote).
    split; [exact Hcalls | split; [exact Hremote | ]].
    destruct (express_json (entity m)) as [refusal | parsed] eqn:Hparser.
    + rewrite (server_refuses w fuel m Hparser). split; reflexivity.
    + rewrite (server_passes w fuel m Hparser), (proj1 (Hhandler parsed)).
      split; assumption.
Qed.

(** ** The paging loop *)

Lemma fetch_pages_step include_disabled failure fuel offset acc w response data u1 :
  serve U (GetKeys include_disabled offset) (remote w) = (Responded response, u1) ->
  ok response = true ->
  json response = Some data ->
  fetch_pages include_disabled failure (S fuel) offset acc w
  = if Nat.ltb (List.length (data_or_empty data)) PAGE
    then (Return (acc ++ data_or_empty data),
          mkWorld (fs w) u1 (calls w ++ [GetKeys include_disabled offset]))
    else fetch_pages include_disabled failure fuel (offset + PAGE)
           (acc ++ data_or_empty data)
           (mkWorld (fs w) u1 (calls w ++ [GetKeys include_disabled offset])).
Proof.
  intros Hserve Hok Hjson.
  cbn [fetch_pages]. unfold bind at 1. unfold fetch. rewrite Hserve.
  rewrite Hok. cbn [negb]. unfold bind at 1. unfold response_json.
  rewrite Hjson. unfold ret at 1.
  destruct (Nat.ltb (List.length (data_or_empty data)) PAGE); reflexivity.
Qed.

Lemma answers_app include_disabled front back : forall offset u u_end,
  answers U include_disabled offset (front ++ back) u u_end ->
  exists u_mid,
    answers U include_disabled offset front u u_mid
    /\ answers U include_disabled (offset + List.length front * PAGE) back u_mid u_end.
Proof.
  induction front as [ | p front IH]; intros offset u u_end Hans.
  - exists u. split; [reflexivity | ].
    cbn [List.length Nat.mul]. rewrite Nat.add_0_r. exact Hans.
  - destruct Hans as (response & data & u1 & Hserve & Hok & Hjson & Hdata & Hrest).
    destruct (IH _ _ _ Hrest) as (u_mid & Hfront & Hback).
    exists u_mid. split.
    + exists response, data, u1. repeat split; assumption.
    + cbn [List.length Nat.mul].
      replace (offset + (PAGE + List.length front * PAGE))
        with (offset + PAGE + List.length front * PAGE) by lia.
      exact Hback.
Qed.

(** Full pages keep the loop going: after as many rounds as there are full
    pages it is still running. *)
Lemma fetch_pages_starved include_disabled failure full : forall offset acc w u_end,
  Forall (fun p => PAGE <= List.length p) full ->
  answers U include_disabled offset full (remote w) u_end ->
  fetch_pages include_disabled failure (List.length full) offset acc w
  = (Pending,
     mkWorld (fs w) u_end
       (calls w ++ map (GetKeys include_disabled) (offsets offset (List.length full)))).
Proof.
  induction full as [ | p full IH]; intros offset acc w u_end Hfull Hans.
  - cbn in Hans. subst u_end. destruct w as [file u tr].
    cbn. rewrite app_nil_r. reflexivity.
  - destruct Hans as (response & data & u1 & Hserve & Hok & Hjson & Hdata & Hrest).
    inversion Hfull as [ | ? ? Hp Hfull']; subst.
    cbn [List.length].
    rewrite (@fetch_pages_step _ failure _ _ acc _ _ _ _ Hserve Hok Hjson).
    replace (Nat.ltb (List.length (data_or_empty data)) PAGE) with false
      by (symmetry; apply Nat.ltb_ge; exact Hp).
    rewrite (IH (offset + PAGE) (acc ++ data_or_empty data)
               (mkWorld (fs w) u1 (calls w ++ [GetKeys include_disabled offset]))
               u_end Hfull' Hrest).
    cbn [fs calls offsets map]. rewrite <- app_assoc. reflexivity.
Qed.

(** The first short page ends the loop, with every page appended in order. *)
Lemma fetch_pages_run include_disabled failure full :
  forall short fuel offset acc w u_end,
  Forall (fun p => PAGE <= List.length p) full ->
  List.length short < PAGE ->
  answers U include_disabled offset (full ++ [short]) (remote w) u_end ->
  List.length full < fuel ->
  fetch_pages include_disabled failure fuel offset acc w
  = (Return (acc ++ List.concat full ++ short),
     mkWorld (fs w) u_end
       (calls w ++ map (GetKeys include_disabled) (offsets offset (S (List.length full))))).
Proof.
  induction full as [ | p full IH]; intros short fuel offset acc w u_end Hfull Hshort Hans Hfuel;
    (destruct fuel as [ | fuel]; [ cbn in Hfuel; lia | ]);
    destruct Hans as (response & data & u1 & Hserve & Hok & Hjson & Hdata & Hrest).
  - cbn in Hrest. subst u1 short.
    rewrite (@fetch_pages_step _ failure _ _ acc _ _ _ _ Hserve Hok Hjson).
    replace (Nat.ltb (List.length (data_or_empty data)) PAGE) with true
      by (symmetry; apply Nat.ltb_lt; exact Hshort).
    reflexivity.
  - inversion Hfull as [ | ? ? Hp Hfull']; subst.
    rewrite (@fetch_pages_step _ failure _ _ acc _ _ _ _ Hserve Hok Hjson).
    replace (Nat.ltb (List.length (data_or_empty data)) PAGE) with false
      by (symmetry; apply Nat.ltb_ge; exact Hp).
    cbn [List.length] in Hfuel.
    rewrite (IH short fuel (offset + PAGE) (acc ++ data_or_empty data)
               (mkWorld (fs w) u1 (calls w ++ [GetKeys include_disabled offset]))
               u_end Hfull' Hshort Hrest) by lia.
    cbn [fs calls offsets map List.concat List.length app].
    rewrite <- !app_assoc. reflexivity.
Qed.

(** C4. Against any upstream that answers the three successive listing
    requests with pages of 100, 100 and 37 keys, [listKeys] sends exactly
    the requests at offsets 0, 100 and 200 and returns the 237 keys, the
    pages concatenated in order.  In general, when the successive requests
    are answered with pages [full ++ [short]], every page of [full] holding
    at least 100 keys and [short] fewer, the loop asks for the offsets 0,
    100, 200, ... once each, one request per page, stops at the short page
    and not before: as long as only full pages have come in it is still
    running. *)
Theorem listKeys_paging w :
  (forall p0 p1 p2 u_end fuel,
      List.length p0 = 100 ->
      List.length p1 = 100 ->
      List.length p2 = 37 ->
      answers U true 0 [p0; p1; p2] (remote w) u_end ->
      3 <= fuel ->
      listKeys fuel w
      = (Return (p0 ++ p1 ++ p2),
         mkWorld (fs w) u_end
           (calls w ++ [GetKeys true 0; GetKeys true 100; GetKeys true 200]))
      /\ List.length (p0 ++ p1 ++ p2) = 237)
  /\ (forall full short u_end fuel,
        Forall (fun p => PAGE <= List.length p) full ->
        List.length short < PAGE ->
        answers U true 0 (full ++ [short]) (remote w) u_end ->
        (List.length full < fuel ->
           listKeys fuel w
           = (Return (List.concat full ++ short),
              mkWorld (fs w) u_end
                (calls w ++ map (GetKeys true) (offsets 0 (S (List.length full))))))
        /\ (fuel <= List.length full ->
            fst (listKeys fuel w) = Pending
            /\ calls (snd (listKeys fuel w))
               = calls w ++ map (GetKeys true) (offsets 0 fuel))).
Proof.
  split.
  - intros p0 p1 p2 u_end fuel H0 H1 H2 Hans Hfuel. split.
    + unfold listKeys. rewrite try_rethrow.
      assert (Hfull : Forall (fun p => PAGE <= List.length p) [p0; p1])
        by (repeat constructor; unfold PAGE; lia).
      assert (Hshort : List.length p2 < PAGE) by (unfold PAGE; lia).
      rewrite (@fetch_pages_run true _ [p0; p1] p2 fuel 0 [] w u_end Hfull Hshort Hans)
        by (cbn [List.length]; lia).
      cbn [List.concat app]. rewrite app_nil_r, <- app_assoc. reflexivity.
    + rewrite !length_app. lia.
  - intros full short u_end fuel Hfull Hshort Hans.
    unfold listKeys. rewrite try_rethrow. split.
    + intros Hfuel.
      exact (@fetch_pages_run true _ full short fuel 0 [] w u_end Hfull Hshort Hans Hfuel).
    + intros Hfuel.
      rewrite <- (firstn_skipn fuel full), <- app_assoc in Hans.
      destruct (@answers_app true _ _ 0 _ _ Hans) as (u_mid & Hfront & _).
      assert (Hlen : List.length (firstn fuel full) = fuel)
        by (rewrite length_firstn; lia).
      assert (Hfront_full : Forall (fun p => PAGE <= List.length p) (firstn fuel full)).
      { rewrite <- (firstn_skipn fuel full) in Hfull.
        apply Forall_app in Hfull. tauto. }
      pose proof (@fetch_pages_starved true "Failed to list keys: " _ 0 [] w u_mid
                    Hfront_full Hfront)
        as Hrun.
      rewrite Hlen in Hrun. rewrite Hrun. split; reflexivity.
Qed.

(** ** Invitations *)

(** The paging loop leaves the config file alone and sends nothing but
    listing requests. *)
Lemma fetch_pages_frame include_disabled failure fuel :
  forall offset acc w outcome w',
  fetch_pages include_disabled failure fuel offset acc w = (outcome, w') ->
  fs w' = fs w
  /\ exists sent, calls w' = calls w ++ sent /\ forallb is_listing sent = true.
Proof.
  induction fuel as [ | fuel IH]; intros offset acc w outcome w' Hrun.
  - cbn in Hrun. inversion Hrun; subst. split; [reflexivity | ].
    exists []. rewrite app_nil_r. split; reflexivity.
  - cbn [fetch_pages] in Hrun. unfold bind at 1 in Hrun. unfold fetch in Hrun.
    destruct (serve U (GetKeys include_disabled offset) (remote w)) as [[reason | response] u1].
    + inversion Hrun; subst. split; [reflexivity | ].
      exists [GetKeys include_disabled offset]. split; reflexivity.
    + destruct (ok response); cbn [negb] in Hrun.
      * unfold bind at 1 in Hrun. unfold response_json in Hrun.
        destruct (json response) as [data | ].
        -- unfold ret at 1 in Hrun.
           destruct (Nat.ltb (List.length (data_or_empty data)) PAGE).
           ++ inversion Hrun; subst. split; [reflexivity | ].
              exists [GetKeys include_disabled offset]. split; reflexivity.
           ++ apply IH in Hrun. cbn [fs calls] in Hrun.
              destruct Hrun as (Hfs & sent & Hcalls & Hsent).
              split; [exact Hfs | ].
              exists (GetKeys include_disabled offset :: sent).
              rewrite Hcalls, <- app_assoc. split; [reflexivity | exact Hsent].
        -- inversion Hrun; subst. split; [reflexivity | ].
           exists [GetKeys include_disabled offset]. split; reflexivity.
      * inversion Hrun; subst. split; [reflexivity | ].
        exists [GetKeys include_disabled offset]. split; reflexivity.
Qed.

Lemma checkExistingEmail_spec fuel email shown w allKeys w1 :
  ToString email = Some shown ->
  fetch_pages false "Failed to fetch keys: " fuel 0 [] w = (Return allKeys, w1) ->
  checkExistingEmail fuel email w
  = (Return (existsb (fun key => String.eqb (name key) ("Goose Hacknight - " ++ shown))
               allKeys),
     w1).
Proof.
  intros Hshown Hrun. unfold checkExistingEmail. rewrite try_rethrow.
  unfold bind at 1. rewrite Hrun. unfold bind, interpolate. rewrite Hshown. reflexivity.
Qed.

Lemma name_match_iff (wanted : string) (l : list Key) :
  existsb (fun key => String.eqb (name key) wanted) l = true
  <-> exists k, In k l /\ name k = wanted.
Proof.
  rewrite existsb_exists. split; intros (k & Hin & Hname); exists k; split; trivial.
  - apply String.eqb_eq. exact Hname.
  - apply String.eqb_eq. exact Hname.
Qed.

Lemma truthy_nonempty (e : string) : e <> "" -> truthy (JStr e) = true.
Proof.
  intros Hne. cbn. destruct (String.eqb_spec e ""); [contradiction | reflexivity].
Qed.

(** An invite that passes the flag and the email check comes down to the
    duplicate check and what follows it. *)
Lemma invite_open w fuel req fields props e :
  route req = Invite ->
  fs w = Holds (JObj fields) ->
  own_property "registrationEnabled" fields = JBool true ->
  req_body req = JObj props ->
  own_property "email" props = JStr e ->
  e <> "" ->
  app env fuel req w
  = try_catch
      (exists_ <- checkExistingEmail fuel (JStr e) ;;
       if (exists_ : bool)
       then ret (res_json 400
                   (JObj [("success", JBool false);
                          ("message",
                           JStr "This email has already been registered for the hackathon.")]))
       else
         keyData <- createOpenRouterKey env (JStr e) ;;
         ret (res_json 200
                (JObj [("success", JBool true);
                       ("apiKey", key keyData);
                       ("keyHash", keyHash_ keyData);
                       ("limit", limit_of keyData);
                       ("name", name_of keyData);
                       ("disabled", disabled_of keyData);
                       ("message",
                        JStr "Your OpenRouter API key has been created successfully.")])))%js
      (fun error =>
         ret (res_json 500 (JObj [("success", JBool false);
                                  ("message", JStr "Failed to create API key");
                                  ("error", JStr (message error))]))) w.
Proof.
  intros Hroute Hfs Hflag Hbody Hemail Hne.
  unfold app. rewrite Hroute. unfold invite.
  unfold try_catch. unfold bind at 1 3.
  rewrite (loadConfig_holds _ Hfs).
  cbn [get_property]. unfold bind at 1 2. unfold ret at 1 2. rewrite Hflag.
  cbn [truthy negb]. rewrite Hbody. cbn [get_property].
  unfold bind at 1 3. unfold ret at 1 3. rewrite Hemail.
  rewrite (truthy_nonempty Hne). cbn [negb]. reflexivity.
Qed.

Lemma listing_is_no_creation (sent : list Request) :
  forallb is_listing sent = true -> existsb is_creation sent = false.
Proof.
  induction sent as [ | rq sent IH]; cbn; [reflexivity | ].
  destruct rq; cbn; try discriminate. exact IH.
Qed.

(** A property with a defined value survives [res.json]. *)
Lemma wire_property p fields v :
  own_property p fields = v ->
  v <> JUndefined ->
  exists out, wire (JObj fields) = JObj out /\ own_property p out = wire v.
Proof.
  intros Hget Hdef. eexists. split; [reflexivity | ].
  revert Hget. induction fields as [ | [k x] fields IH]; intros Hget.
  - cbn in Hget. congruence.
  - cbn [own_property] in Hget.
    destruct (String.eqb k p) eqn:Hk.
    + subst x. destruct v; try congruence; cbn [own_property]; rewrite Hk; reflexivity.
    + destruct x; try exact (IH Hget); cbn [own_property]; rewrite Hk; exact (IH Hget).
Qed.

(** C2, as amended.  With registration enabled and a non-empty email [e]:
    if the listing the duplicate check fetched holds a key whose name is
    exactly ["Goose Hacknight - " ++ e], the invite is answered 400
    "already registered" and only listing requests were sent, no creation;
    and the check says "exists" exactly when the listing holds such a key. *)
Theorem invite_duplicate w fuel req fields props e allKeys w1 :
  route req = Invite ->
  fs w = Holds (JObj fields) ->
  own_property "registrationEnabled" fields = JBool true ->
  req_body req = JObj props ->
  own_property "email" props = JStr e ->
  e <> "" ->
  fetch_pages false "Failed to fetch keys: " fuel 0 [] w = (Return allKeys, w1) ->
  ((exists k, In k allKeys /\ name k = ("Goose Hacknight - " ++ e)%string) ->
     respond env fuel req w
     = (Some (mkRes 400
                (JsonBody
                   (JObj [("success", JBool false);
                          ("message",
                           JStr "This email has already been registered for the hackathon.")]))),
        w1)
     /\ exists sent, calls w1 = calls w ++ sent /\ existsb is_creation sent = false)
  /\ (checkExistingEmail fuel (JStr e) w = (Return true, w1)
      <-> exists k, In k allKeys /\ name k = ("Goose Hacknight - " ++ e)%string).
Proof.
  intros Hroute Hfs Hflag Hbody Hemail Hne Hrun.
  pose proof (@checkExistingEmail_spec fuel (JStr e) e w allKeys w1 eq_refl Hrun) as Hcheck.
  split.
  - intros Hdup. apply name_match_iff in Hdup. split.
    + unfold respond. rewrite (@invite_open w fuel req fields props e Hroute Hfs Hflag Hbody Hemail Hne).
      unfold try_catch, bind. rewrite Hcheck, Hdup. reflexivity.
    + destruct (@fetch_pages_frame false _ fuel 0 [] w _ w1 Hrun) as (_ & sent & Hcalls & Hsent).
      exists sent. split; [exact Hcalls | apply listing_is_no_creation; exact Hsent].
  - rewrite Hcheck. rewrite <- name_match_iff. split.
    + intros Heq. injection Heq as Hb. exact Hb.
    + intros Hb. rewrite Hb. reflexivity.
Qed.

(** C3.  With registration enabled, a non-empty email [e] that no listed key
    is named after, and an upstream that answers the creation request with
    success, a non-empty secret and the name it was asked for, the invite is
    answered 200 with [success: true], [apiKey] the secret the upstream
    returned and [name] equal to ["Goose Hacknight - " ++ e]. *)
Theorem invite_creates w fuel req fields props e allKeys w1 response data u2 secret :
  route req = Invite ->
  fs w = Holds (JObj fields) ->
  own_property "registrationEnabled" fields = JBool true ->
  req_body req = JObj props ->
  own_property "email" props = JStr e ->
  e <> "" ->
  fetch_pages false "Failed to fetch keys: " fuel 0 [] w = (Return allKeys, w1) ->
  (forall k, In k allKeys -> name k <> ("Goose Hacknight - " ++ e)%string) ->
  serve U (PostKey ("Goose Hacknight - " ++ e) (replace_first "@" "-at-" e) (credit_limit env))
    (remote w1) = (Responded response, u2) ->
  ok response = true ->
  json response = Some data ->
  body_key data = JStr secret ->
  secret <> "" ->
  body_name data = JStr ("Goose Hacknight - " ++ e) ->
  respond env fuel req w
  = (Some (res_json 200
             (JObj [("success", JBool true);
                    ("apiKey", JStr secret);
                    ("keyHash", body_hash data);
                    ("limit", body_limit data);
                    ("name", JStr ("Goose Hacknight - " ++ e));
                    ("disabled", body_disabled data);
                    ("message",
                     JStr "Your OpenRouter API key has been created successfully.")])),
     mkWorld (fs w1) u2
       (calls w1 ++ [PostKey ("Goose Hacknight - " ++ e) (replace_first "@" "-at-" e)
                       (credit_limit env)]))
  /\ exists out,
      fst (respond env fuel req w) = Some (mkRes 200 (JsonBody (JObj out)))
      /\ own_property "success" out = JBool true
      /\ own_property "apiKey" out = JStr secret
      /\ own_property "name" out = JStr ("Goose Hacknight - " ++ e).
Proof.
  intros Hroute Hfs Hflag Hbody Hemail Hne Hrun Hfresh Hserve Hok Hjson Hkey Hsecret Hname.
  pose proof (@checkExistingEmail_spec fuel (JStr e) e w allKeys w1 eq_refl Hrun) as Hcheck.
  assert (Hnone : existsb (fun key => String.eqb (name key) ("Goose Hacknight - " ++ e))
                    allKeys = false).
  { apply not_true_is_false. intros Hdup. apply name_match_iff in Hdup.
    destruct Hdup as (k & Hin & Hk). exact (Hfresh k Hin Hk). }
  assert (Hres : respond env fuel req w
    = (Some (res_json 200
               (JObj [("success", JBool true);
                      ("apiKey", JStr secret);
                      ("keyHash", body_hash data);
                      ("limit", body_limit data);
                      ("name", JStr ("Goose Hacknight - " ++ e));
                      ("disabled", body_disabled data);
                      ("message",
                       JStr "Your OpenRouter API key has been created successfully.")])),
       mkWorld (fs w1) u2
         (calls w1 ++ [PostKey ("Goose Hacknight - " ++ e) (replace_first "@" "-at-" e)
                         (credit_limit env)]))).
  { unfold respond. rewrite (@invite_open w fuel req fields props e Hroute Hfs Hflag Hbody Hemail Hne).
    unfold try_catch. unfold bind at 1. rewrite Hcheck, Hnone.
    unfold bind at 1. unfold createOpenRouterKey. rewrite try_rethrow.
    unfold bind at 1. unfold interpolate. cbn [ToString]. unfold ret at 1.
    unfold bind at 1. unfold ret at 1. unfold bind at 1. unfold fetch.
    rewrite Hserve, Hok. cbn [negb].
    unfold bind at 1. unfold response_json. rewrite Hjson. unfold ret.
    rewrite Hkey, Hname. reflexivity. }
  split; [exact Hres | ].
  rewrite Hres. cbn [fst]. unfold res_json.
  set (sent := [("success", JBool true); ("apiKey", JStr secret);
                ("keyHash", body_hash data); ("limit", body_limit data);
                ("name", JStr ("Goose Hacknight - " ++ e));
                ("disabled", body_disabled data);
                ("message", JStr "Your OpenRouter API key has been created successfully.")]).
  destruct (@wire_property "success" sent (JBool true) eq_refl) as (out & Hout & Hsuccess);
    [discriminate | ].
  destruct (@wire_property "apiKey" sent (JStr secret) eq_refl) as (out1 & Hout1 & HapiKey);
    [discriminate | ].
  destruct (@wire_property "name" sent (JStr ("Goose Hacknight - " ++ e)) eq_refl)
    as (out2 & Hout2 & Hname_out); [discriminate | ].
  rewrite Hout in Hout1, Hout2.
  injection Hout1 as <-. injection Hout2 as <-.
  exists out. rewrite Hout. repeat split; assumption.
Qed.

(** ** Admin routes *)

Lemma option_string_eqb_eq (a b : option string) :
  option_string_eqb a b = true <-> a = b.
Proof.
  destruct a as [x | ], b as [y | ]; cbn; try (split; congruence).
  rewrite String.eqb_eq. split; congruence.
Qed.

(** The guard in front of an admin handler, for a configured secret. *)
Lemma adminAuth_handler w fuel req secret :
  ADMIN_SECRET_TOKEN env = Some secret ->
  is_admin_route (route req) = true ->
  (x_admin_token req <> Some secret ->
     respond env fuel req w
     = (Some (mkRes 401 (JsonBody (JObj [("success", JBool false);
                                         ("message", JStr "Unauthorized access")]))),
        w))
  /\ (x_admin_token req = Some secret ->
      app env fuel req w = guarded (route req) fuel w).
Proof.
  intros Hsecret Hroute. split; intros Htoken.
  - assert (Hneq : option_string_eqb (x_admin_token req) (ADMIN_SECRET_TOKEN env) = false).
    { apply not_true_is_false. rewrite option_string_eqb_eq. congruence. }
    unfold respond, app, adminAuth.
    destruct (route req); try discriminate Hroute; rewrite Hneq; reflexivity.
  - assert (Heq : option_string_eqb (x_admin_token req) (ADMIN_SECRET_TOKEN env) = true).
    { apply option_string_eqb_eq. congruence. }
    unfold app, adminAuth, guarded.
    destruct (route req); try discriminate Hroute; rewrite Heq; reflexivity.
Qed.

Lemma admin_passes w fuel req :
  is_admin_route (route req) = true ->
  x_admin_token req = ADMIN_SECRET_TOKEN env ->
  app env fuel req w = guarded (route req) fuel w.
Proof.
  intros Hroute Htoken.
  assert (Heq : option_string_eqb (x_admin_token req) (ADMIN_SECRET_TOKEN env) = true)
    by (apply option_string_eqb_eq; exact Htoken).
  unfold app, adminAuth, guarded.
  destruct (route req); try discriminate Hroute; rewrite Heq; reflexivity.
Qed.

(** C6, as amended.  With an admin secret configured and a body the JSON
    parser lets through, a request to an admin route whose [x-admin-token]
    header is absent or differs from the secret is answered 401 and leaves
    the world as it was, so nothing is sent upstream; a request carrying
    exactly the secret is handed to the route's handler.  A body the parser
    refuses is answered by the parser, whatever the token, and the world is
    as it was. *)
Theorem adminAuth_guard w fuel (m : Incoming) secret :
  ADMIN_SECRET_TOKEN env = Some secret ->
  is_admin_route (target m) = true ->
  (forall parsed,
      express_json (entity m) = inr parsed ->
      (admin_token m <> Some secret ->
         server env fuel m w
         = (Some (mkRes 401 (JsonBody (JObj [("success", JBool false);
                                             ("message", JStr "Unauthorized access")]))),
            w))
      /\ (admin_token m = Some secret ->
          server env fuel m w
          = respond env fuel (mkReq (target m) (admin_token m) parsed) w
          /\ app env fuel (mkReq (target m) (admin_token m) parsed) w
             = guarded (target m) fuel w))
  /\ (forall refusal,
        express_json (entity m) = inl refusal ->
        server env fuel m w = (Some refusal, w)).
Proof.
  intros Hsecret Htarget. split.
  - intros parsed Hparsed.
    destruct (@adminAuth_handler w fuel (mkReq (target m) (admin_token m) parsed) secret
                Hsecret Htarget) as [Hwrong Hright].
    rewrite (server_passes w fuel m Hparsed). split.
    + exact Hwrong.
    + intros Htoken. split; [reflexivity | exact (Hright Htoken)].
  - intros refusal Hrefused. exact (server_refuses w fuel m Hrefused).
Qed.

Lemma served_cons rq rqs (u : ustate U) :
  served U (rq :: rqs) u
  = (fst (serve U rq u) :: fst (served U rqs (snd (serve U rq u))),
     snd (served U rqs (snd (serve U rq u)))).
Proof.
  cbn [served]. destruct (serve U rq u) as [r u1]. cbn [fst snd].
  destruct (served U rqs u1) as [rs u2]. reflexivity.
Qed.

(** One element of the disable-all batch always settles, whatever the
    upstream answered. *)
Lemma disable_one_settles key w :
  exists key',
    disable_one key w
    = (Return key',
       mkWorld (fs w) (snd (serve U (disabling key) (remote w)))
         (calls w ++ [disabling key])).
Proof.
  unfold disable_one. unfold try_catch at 1. unfold bind at 1.
  unfold disableKey. rewrite try_rethrow.
  unfold bind at 1. unfold fetch, disabling.
  destruct (serve U (PatchKey (hash key) true) (remote w)) as [[reason | response] u1];
    cbn [snd].
  - eexists. reflexivity.
  - destruct (ok response); cbn [negb].
    + unfold bind, response_json. destruct (json response); eexists; reflexivity.
    + eexists. reflexivity.
Qed.

Lemma disable_batch keys : forall w,
  exists keys',
    promise_all (map (@disable_one U) keys) w
    = (Return keys',
       mkWorld (fs w) (snd (served U (map disabling keys) (remote w)))
         (calls w ++ map disabling keys)).
Proof.
  induction keys as [ | key keys IH]; intros w.
  - exists []. destruct w as [file u tr]. cbn. rewrite app_nil_r. reflexivity.
  - destruct (disable_one_settles key w) as (key' & Hone).
    cbn [map promise_all]. rewrite Hone.
    destruct (IH (mkWorld (fs w) (snd (serve U (disabling key) (remote w)))
                    (calls w ++ [disabling key]))) as (keys' & Hrest).
    rewrite Hrest. exists (key' :: keys').
    rewrite served_cons. cbn [fs remote calls snd]. rewrite <- app_assoc. reflexivity.
Qed.

(** C8.  Disable-all, once its first listing came back with [keys], sends
    one disable request per listed key, in order, whichever of them fail;
    it then lists again and, that listing succeeding, answers 200 with the
    fresh listing and a message that counts every key of the first one. *)
Theorem disable_all_tolerant w fuel req keys w1 updated w3 :
  route req = AdminDisableAll ->
  x_admin_token req = ADMIN_SECRET_TOKEN env ->
  listKeys fuel w = (Return keys, w1) ->
  listKeys fuel
    (mkWorld (fs w1) (snd (served U (map disabling keys) (remote w1)))
       (calls w1 ++ map disabling keys))
  = (Return updated, w3) ->
  respond env fuel req w
  = (Some (res_json 200
             (JObj [("success", JBool true);
                    ("message",
                     JStr ("Successfully processed " ++ decimal (List.length keys) ++ " keys"));
                    ("data", JArr (map key_value updated))])),
     w3)
  /\ exists relisting,
      calls w3 = calls w1 ++ map disabling keys ++ relisting
      /\ forallb is_listing relisting = true.
Proof.
  intros Hroute Htoken Hlist Hrelist. split.
  - unfold respond. rewrite admin_passes; [ | rewrite Hroute; reflexivity | exact Htoken ].
    rewrite Hroute. cbn [guarded]. unfold disable_all, try_catch.
    unfold bind at 1. rewrite Hlist.
    destruct (disable_batch keys w1) as (keys' & Hbatch).
    unfold bind at 1. rewrite Hbatch.
    unfold bind at 1. rewrite Hrelist. reflexivity.
  - unfold listKeys in Hrelist. rewrite try_rethrow in Hrelist.
    apply fetch_pages_frame in Hrelist. cbn [fs calls] in Hrelist.
    destruct Hrelist as (_ & sent & Hcalls & Hsent).
    exists sent. rewrite Hcalls, <- app_assoc. split; [reflexivity | exact Hsent].
Qed.

Lemma deleteKey_run keyHash w :
  deleteKey keyHash w
  = (if succeeded (fst (serve U (DeleteKey keyHash) (remote w)))
     then Return true
     else Throw (delete_failure (fst (serve U (DeleteKey keyHash) (remote w)))),
     mkWorld (fs w) (snd (serve U (DeleteKey keyHash) (remote w)))
       (calls w ++ [DeleteKey keyHash])).
Proof.
  unfold deleteKey. rewrite try_rethrow. unfold bind, fetch.
  destruct (serve U (DeleteKey keyHash) (remote w)) as [[reason | response] u1];
    cbn [fst snd succeeded delete_failure]; [reflexivity | ].
  destruct (ok response); reflexivity.
Qed.

(** The delete-all batch: every request is sent; the batch rejects with the
    error of the first failed deletion, if there is one. *)
Lemma delete_batch keys : forall w,
  promise_all (map (fun key => @deleteKey U (hash key)) keys) w
  = (match find (fun r => negb (succeeded r))
             (fst (served U (map deletion keys) (remote w))) with
     | Some r => Throw (delete_failure r)
     | None => Return (map (fun _ => true) keys)
     end,
     mkWorld (fs w) (snd (served U (map deletion keys) (remote w)))
       (calls w ++ map deletion keys)).
Proof.
  induction keys as [ | key keys IH]; intros w.
  - destruct w as [file u tr]. cbn. rewrite app_nil_r. reflexivity.
  - cbn [map promise_all]. rewrite deleteKey_run, IH.
    rewrite served_cons. cbn [fs remote calls fst snd find]. rewrite <- app_assoc.
    change (DeleteKey (hash key)) with (deletion key).
    destruct (succeeded (fst (serve U (deletion key) (remote w)))); cbn [negb];
      [ | destruct (find _ _); reflexivity ].
    destruct (find _ _); reflexivity.
Qed.

Lemma find_failure (l : list FetchResult) :
  forallb succeeded l = false ->
  exists r, find (fun r => negb (succeeded r)) l = Some r
            /\ In r l /\ succeeded r = false.
Proof.
  induction l as [ | r l IH]; cbn; [discriminate | ].
  destruct (succeeded r) eqn:Hr; cbn.
  - intros Hl. destruct (IH Hl) as (r' & Hfind & Hin & Hfail).
    exists r'. auto.
  - intros _. exists r. auto.
Qed.

Lemma find_no_failure (l : list FetchResult) :
  forallb succeeded l = true -> find (fun r => negb (succeeded r)) l = None.
Proof.
  induction l as [ | r l IH]; cbn; [reflexivity | ].
  destruct (succeeded r); cbn; [exact IH | discriminate].
Qed.


(** With no admin secret in the environment the guard compares
    [undefined !== undefined]: a request without the header passes. *)
Remark adminAuth_unset_secret w fuel req :
  ADMIN_SECRET_TOKEN env = None ->
  x_admin_token req = None ->
  is_admin_route (route req) = true ->
  app env fuel req w = guarded (route req) fuel w.
Proof.
  intros Hunset Hnone Hroute. apply admin_passes; congruence.
Qed.

(** ** What escapes a handler *)

Lemma try_catch_responds (c : M (World U) HttpRes) (f : JsError -> HttpRes) w :
  thrown (fst (try_catch c (fun error => ret (f error)) w)) = false.
Proof.
  unfold try_catch, ret. destruct (c w) as [[res | e' | ] w']; reflexivity.
Qed.

(** Every [async] handler wraps its whole body in [try]/[catch]: only the
    status route can let an exception through to the framework. *)
Lemma only_status_route_throws w fuel req :
  route req <> RegistrationStatus ->
  thrown (fst (app env fuel req w)) = false.
Proof.
  intros Hroute. unfold app, adminAuth.
  destruct (route req); try congruence;
    try (destruct (negb _); [reflexivity | ]);
    try apply try_catch_responds.
  reflexivity.
Qed.

(** The duplicate check pages like [listKeys] does, without
    [include_disabled]. *)
Lemma checkExistingEmail_paging w email shown full short u_end fuel :
  ToString email = Some shown ->
  Forall (fun p => PAGE <= List.length p) full ->
  List.length short < PAGE ->
  answers U false 0 (full ++ [short]) (remote w) u_end ->
  List.length full < fuel ->
  checkExistingEmail fuel email w
  = (Return (existsb (fun key => String.eqb (name key) ("Goose Hacknight - " ++ shown))
               (List.concat full ++ short)),
     mkWorld (fs w) u_end
       (calls w ++ map (GetKeys false) (offsets 0 (S (List.length full))))).
Proof.
  intros Hshown Hfull Hshort Hans Hfuel.
  apply checkExistingEmail_spec; [exact Hshown | ].
  exact (@fetch_pages_run false _ full short fuel 0 [] w u_end Hfull Hshort Hans Hfuel).
Qed.

End Properties.

(** * The server in front of the reference key service *)

Section ReferenceService.

Variable env : Env.

(** Given fuel for every page, a paging loop returns every key the service
    lists, from [offset] on, and leaves the service as it was. *)
Lemma listing_complete include_disabled failure fuel :
  forall offset acc file st tr,
  List.length (KeyService.visible include_disabled st) - offset < fuel * PAGE ->
  exists sent,
    fetch_pages include_disabled failure fuel offset acc
      (mkWorld (U := KeyService.upstream) file st tr)
    = (Return (acc ++ skipn offset (KeyService.visible include_disabled st)),
       mkWorld (U := KeyService.upstream) file st (tr ++ sent)).
Proof.
  induction fuel as [ | fuel IH]; intros offset acc file st tr Hfuel.
  - cbn in Hfuel. lia.
  - pose (data := mkPayload (Some (KeyService.page include_disabled offset st))
                    JUndefined JUndefined JUndefined JUndefined JUndefined None).
    rewrite (@fetch_pages_step KeyService.upstream include_disabled failure fuel offset acc
               (mkWorld (U := KeyService.upstream) file st tr)
               (mkResponse true "OK" (Some data)) data st eq_refl eq_refl eq_refl).
    cbn [data_or_empty body_data data fs calls]. unfold KeyService.page.
    set (rest := skipn offset (KeyService.visible include_disabled st)).
    assert (Hrest : List.length rest = List.length (KeyService.visible include_disabled st) - offset)
      by apply length_skipn.
    destruct (Nat.ltb_spec (List.length (firstn PAGE rest)) PAGE) as [Hshort | Hfull].
    + exists [GetKeys include_disabled offset].
      rewrite length_firstn in Hshort.
      rewrite firstn_all2 by lia. reflexivity.
    + rewrite length_firstn in Hfull.
      destruct (IH (offset + PAGE) (acc ++ firstn PAGE rest) file st
                  (tr ++ [GetKeys include_disabled offset])) as (sent & Hrun).
      { cbn [Nat.mul] in Hfuel. lia. }
      exists (GetKeys include_disabled offset :: sent).
      rewrite Hrun. rewrite <- !app_assoc. cbn [app].
      replace (skipn (offset + PAGE) (KeyService.visible include_disabled st))
        with (skipn PAGE rest)
        by (unfold rest; rewrite skipn_skipn; f_equal; lia).
      rewrite firstn_skipn. reflexivity.
Qed.

Lemma get_property_pure (v : jsvalue) (p : string) (w : World KeyService.upstream) :
  (exists e, get_property v p w = (Throw e, w))
  \/ (exists x, get_property v p w = (Return x, w)).
Proof.
  destruct v; cbn; unfold throw, ret; eauto.
Qed.

Lemma invite_effect fuel req file st tr :
  List.length (KeyService.visible false st) < fuel * PAGE ->
  route req = Invite ->
  remote (snd (app env fuel req (mkWorld (U := KeyService.upstream) file st tr))) = st
  \/ exists n l q,
       existsb (fun key => String.eqb (name key) n) (KeyService.visible false st) = false
       /\ remote (snd (app env fuel req (mkWorld (U := KeyService.upstream) file st tr)))
          = KeyService.mkState
              (KeyService.keys st
               ++ [mkKey n ("hash-" ++ decimal (KeyService.minted st)) l q false])
              (S (KeyService.minted st)).
Proof.
  intros Hfuel Hroute.
  remember (snd (app env fuel req (mkWorld (U := KeyService.upstream) file st tr)))
    as w' eqn:Hw'.
  unfold app in Hw'. rewrite Hroute in Hw'. unfold invite, try_catch in Hw'.
  unfold bind at 1 in Hw'.
  destruct (loadConfig_returns (mkWorld (U := KeyService.upstream) file st tr))
    as (config & file' & Hload).
  rewrite Hload in Hw'. cbn [remote calls] in Hw'.
  unfold bind at 1 in Hw'.
  destruct (get_property_pure config "registrationEnabled"
              (mkWorld (U := KeyService.upstream) file' st tr)) as [[e He] | [flag Hflag]].
  { rewrite He in Hw'. subst w'. left. reflexivity. }
  rewrite Hflag in Hw'.
  destruct (truthy flag); cbn [negb] in Hw'; [ | subst w'; left; reflexivity ].
  unfold bind at 1 in Hw'.
  destruct (get_property_pure (req_body req) "email"
              (mkWorld (U := KeyService.upstream) file' st tr)) as [[e He] | [email Hemail]].
  { rewrite He in Hw'. subst w'. left. reflexivity. }
  rewrite Hemail in Hw'.
  destruct (truthy email); cbn [negb] in Hw'; [ | subst w'; left; reflexivity ].
  unfold bind at 1 in Hw'. unfold interpolate at 1 in Hw'.
  destruct (ToString email) as [shown | ] eqn:Hshown; [ | subst w'; left; reflexivity ].
  unfold ret at 1 in Hw'. unfold bind at 1 in Hw'.
  destruct (@listing_complete false "Failed to fetch keys: " fuel 0 [] file' st tr)
    as (sent & Hrun); [ lia | ].
  cbn [app skipn] in Hrun.
  rewrite (@checkExistingEmail_spec KeyService.upstream fuel email shown _ _ _ Hshown Hrun)
    in Hw'.
  destruct (existsb _ _) eqn:Hdup; [ subst w'; left; reflexivity | ].
  unfold bind at 1 in Hw'. unfold createOpenRouterKey in Hw'.
  rewrite try_rethrow in Hw'. unfold bind at 1 in Hw'.
  unfold interpolate in Hw'. rewrite Hshown in Hw'. unfold ret at 1 in Hw'.
  unfold bind at 1 in Hw'.
  destruct email as [ | | b | text | s | items | props ];
    try (subst w'; left; reflexivity).
  right. subst w'. cbn. eexists _, _, _. split; [exact Hdup | reflexivity].
Qed.

Lemma respond_world (U : Upstream) fuel req (w : World U) :
  snd (respond env fuel req w) = snd (app env fuel req w).
Proof.
  unfold respond. destruct (app env fuel req w) as [[res | e | ] w']; reflexivity.
Qed.

Lemma no_match_filter (wanted : string) (l : list Key) :
  existsb (fun k => String.eqb (name k) wanted) l = false ->
  filter (fun k => String.eqb (name k) wanted) l = [].
Proof.
  induction l as [ | k l IH]; cbn; [reflexivity | ].
  destruct (String.eqb (name k) wanted); cbn; [discriminate | exact IH].
Qed.

Lemma visible_all_enabled st :
  KeyService.all_enabled st -> KeyService.visible false st = KeyService.keys st.
Proof.
  unfold KeyService.all_enabled, KeyService.visible.
  induction (KeyService.keys st) as [ | k l IH]; intros Hall; [reflexivity | ].
  cbn [filter]. unfold KeyService.listed at 1.
  rewrite (Hall k (or_introl eq_refl)). cbn [negb orb].
  rewrite IH; [reflexivity | ].
  intros k' Hin. apply Hall. right. exact Hin.
Qed.

(** On a service where no key is disabled, a single invite keeps at most one
    key per email (and disables nothing). *)
Lemma invite_keeps_one_key fuel req file st tr :
  route req = Invite ->
  KeyService.all_enabled st ->
  KeyService.one_key_per_email st ->
  List.length (KeyService.keys st) < fuel * PAGE ->
  KeyService.one_key_per_email
    (remote (snd (respond env fuel req (mkWorld (U := KeyService.upstream) file st tr))))
  /\ KeyService.all_enabled
       (remote (snd (respond env fuel req (mkWorld (U := KeyService.upstream) file st tr))))
  /\ List.length
       (KeyService.keys
          (remote (snd (respond env fuel req
                          (mkWorld (U := KeyService.upstream) file st tr)))))
     <= S (List.length (KeyService.keys st)).
Proof.
  intros Hroute Hall Hone Hfuel. rewrite respond_world.
  pose proof (visible_all_enabled Hall) as Hvis.
  destruct (@invite_effect fuel req file st tr) as [Hsame | (n & l & q & Hnew & Hgrown)];
    [ rewrite Hvis; exact Hfuel | exact Hroute | | ].
  - rewrite Hsame. repeat split; [exact Hone | exact Hall | lia].
  - rewrite Hgrown. rewrite Hvis in Hnew. split; [ | split ].
    + intros address. unfold KeyService.keys_of_email. cbn [KeyService.keys].
      rewrite filter_app, length_app. cbn [filter name].
      destruct (String.eqb_spec n ("Goose Hacknight - " ++ address))
        as [Hsame_name | Hother].
      * assert (Hnone : filter (fun k => String.eqb (name k) ("Goose Hacknight - " ++ address))
                          (KeyService.keys st) = [])
          by (rewrite <- Hsame_name; apply no_match_filter; exact Hnew).
        rewrite Hnone. cbn. lia.
      * cbn [List.length]. specialize (Hone address).
        unfold KeyService.keys_of_email in Hone. lia.
    + intros k Hin. cbn [KeyService.keys] in Hin. apply in_app_or in Hin.
      destruct Hin as [Hin | [<- | []]]; [apply Hall; exact Hin | reflexivity].
    + cbn [KeyService.keys]. rewrite length_app. cbn. lia.
Qed.

(** Invites handled one after the other, against a reference service on
    which no key is disabled, with fuel for every page of every duplicate
    check: from a state with at most one key per email they lead to a state
    with at most one key per email. *)
Theorem sequential_invites_keep_one_key fuel reqs :
  forall file st tr,
  Forall (fun req => route req = Invite) reqs ->
  KeyService.all_enabled st ->
  KeyService.one_key_per_email st ->
  List.length (KeyService.keys st) + List.length reqs <= fuel * PAGE ->
  KeyService.one_key_per_email
    (remote (handle_all env fuel reqs (mkWorld (U := KeyService.upstream) file st tr))).
Proof.
  induction reqs as [ | req reqs IH]; intros file st tr Hroutes Hall Hone Hfuel.
  - exact Hone.
  - inversion Hroutes as [ | ? ? Hroute Hrest]; subst.
    cbn [List.length] in Hfuel. cbn [handle_all].
    destruct (@invite_keeps_one_key fuel req file st tr Hroute Hall Hone)
      as (Hone' & Hall' & Hgrow); [ lia | ].
    destruct (snd (respond env fuel req (mkWorld (U := KeyService.upstream) file st tr)))
      as [file' st' tr'].
    cbn [remote] in Hone', Hall', Hgrow.
    apply IH; [exact Hrest | exact Hall' | exact Hone' | lia].
Qed.

End ReferenceService.

(** * Further behaviour of the routes *)

Section Behaviour.

Variable U : Upstream.
Variable env : Env.

Implicit Types (w : World U) (fuel : nat) (req : HttpReq).

Lemma get_property_outcome (v : jsvalue) (p : string) w :
  (exists e, get_property v p w = (Throw e, w))
  \/ (exists x, get_property v p w = (Return x, w)).
Proof.
  destruct v; cbn; unfold throw, ret; eauto.
Qed.

(** Past the flag, with an object for a body, an invite is its email check
    and what follows it. *)
Lemma invite_enabled w fuel req fields props :
  route req = Invite ->
  fs w = Holds (JObj fields) ->
  truthy (own_property "registrationEnabled" fields) = true ->
  req_body req = JObj props ->
  app env fuel req w
  = try_catch
      (if negb (truthy (own_property "email" props))
       then ret (res_json 400 (JObj [("success", JBool false);
                                     ("message", JStr "Email is required")]))
       else
         interpolate "Processing registration for " (own_property "email" props) ;;;
         exists_ <- checkExistingEmail fuel (own_property "email" props) ;;
         if (exists_ : bool)
         then ret (res_json 400
                     (JObj [("success", JBool false);
                            ("message",
                             JStr "This email has already been registered for the hackathon.")]))
         else
           keyData <- createOpenRouterKey env (own_property "email" props) ;;
           ret (res_json 200
                  (JObj [("success", JBool true);
                         ("apiKey", key keyData);
                         ("keyHash", keyHash_ keyData);
                         ("limit", limit_of keyData);
                         ("name", name_of keyData);
                         ("disabled", disabled_of keyData);
                         ("message",
                          JStr "Your OpenRouter API key has been created successfully.")])))%js
      (fun error =>
         ret (res_json 500 (JObj [("success", JBool false);
                                  ("message", JStr "Failed to create API key");
                                  ("error", JStr (message error))]))) w.
Proof.
  intros Hroute Hfs Hflag Hbody.
  unfold app. rewrite Hroute. unfold invite.
  unfold try_catch. unfold bind at 1.
  rewrite (loadConfig_holds _ Hfs).
  cbn [get_property]. unfold bind at 1. unfold ret at 1. rewrite Hflag.
  cbn [negb]. rewrite Hbody. cbn [get_property].
  unfold bind at 1. unfold ret at 1. reflexivity.
Qed.

(** X4. With registration enabled, an invite whose body carries no email,
    or a falsy one (the empty string, [null], [0], [false]), is answered 400
    "Email is required" and nothing is sent upstream. *)
Theorem invite_requires_email w fuel req fields props :
  route req = Invite ->
  fs w = Holds (JObj fields) ->
  truthy (own_property "registrationEnabled" fields) = true ->
  req_body req = JObj props ->
  truthy (own_property "email" props) = false ->
  respond env fuel req w
  = (Some (mkRes 400 (JsonBody (JObj [("success", JBool false);
                                      ("message", JStr "Email is required")]))),
     w).
Proof.
  intros Hroute Hfs Hflag Hbody Hemail.
  unfold respond. rewrite (@invite_enabled w fuel req fields props Hroute Hfs Hflag Hbody).
  unfold try_catch. rewrite Hemail. reflexivity.
Qed.

(** X5. The registration gate tests the truthiness of the stored flag, not
    whether it is the boolean [true]: on a file holding an object, a falsy
    flag (also an absent one) closes registration with 403 and no upstream
    call, and any truthy flag, the string ["false"] included, lets the
    invite through, so that 403 is never the answer. *)
Theorem invite_gate_is_truthiness w fuel req fields :
  route req = Invite ->
  fs w = Holds (JObj fields) ->
  (truthy (own_property "registrationEnabled" fields) = false ->
     respond env fuel req w
     = (Some (mkRes 403
                (JsonBody (JObj [("success", JBool false);
                                 ("message", JStr "Registration is currently closed")]))),
        w))
  /\ (truthy (own_property "registrationEnabled" fields) = true ->
      has_status 403 (fst (respond env fuel req w)) = false).
Proof.
  intros Hroute Hfs. split; intros Hflag;
    unfold respond, app; rewrite Hroute; unfold invite, try_catch;
    unfold bind at 1; rewrite (loadConfig_holds _ Hfs);
    cbn [get_property]; unfold bind at 1; unfold ret at 1; rewrite Hflag; cbn [negb].
  - reflexivity.
  - unfold bind at 1.
    destruct (get_property_outcome (req_body req) "email" w) as [[e He] | [email Hemail]].
    { rewrite He. reflexivity. }
    rewrite Hemail.
    destruct (truthy email); cbn [negb]; [ | reflexivity ].
    unfold bind at 1. unfold interpolate at 1.
    destruct (ToString email); [ | reflexivity ].
    unfold ret at 1. unfold bind at 1.
    destruct (checkExistingEmail fuel email w) as [[[ | ] | e | ] w1]; try reflexivity.
    unfold bind at 1.
    destruct (createOpenRouterKey env email w1) as [[keyData | e | ] w2]; reflexivity.
Qed.

Lemma checkExistingEmail_frame fuel email w outcome w1 :
  checkExistingEmail fuel email w = (outcome, w1) ->
  fs w1 = fs w
  /\ exists sent, calls w1 = calls w ++ sent /\ forallb is_listing sent = true.
Proof.
  unfold checkExistingEmail. rewrite try_rethrow. unfold bind at 1.
  destruct (fetch_pages false "Failed to fetch keys: " fuel 0 [] w) as [[allKeys | e | ] w']
    eqn:Hrun; intros Hcheck;
    apply fetch_pages_frame in Hrun.
  - unfold bind, interpolate in Hcheck.
    destruct (ToString email); inversion Hcheck; subst; exact Hrun.
  - inversion Hcheck; subst; exact Hrun.
  - inversion Hcheck; subst; exact Hrun.
Qed.

(** Creating a key sends one request or none, and none unless the email is
    a string. *)
Lemma createOpenRouterKey_calls email w :
  (exists outcome, createOpenRouterKey env email w = (outcome, w))
  \/ (exists outcome s u,
        email = JStr s
        /\ createOpenRouterKey env email w
           = (outcome,
              mkWorld (fs w) u
                (calls w ++ [PostKey ("Goose Hacknight - " ++ s)
                               (replace_first "@" "-at-" s) (credit_limit env)]))).
Proof.
  destruct (match email with JStr _ => true | _ => false end) eqn:Hkind.
  - destruct email as [ | | b | text | s | items | props ]; try discriminate Hkind.
    right.
    assert (Hrun : exists outcome u,
               createOpenRouterKey env (JStr s) w
               = (outcome,
                  mkWorld (fs w) u
                    (calls w ++ [PostKey ("Goose Hacknight - " ++ s)
                                   (replace_first "@" "-at-" s) (credit_limit env)]))).
    { unfold createOpenRouterKey. rewrite try_rethrow.
      cbv beta iota delta [bind interpolate ret fetch response_json throw]. cbn [ToString].
      destruct (serve U (PostKey ("Goose Hacknight - " ++ s) (replace_first "@" "-at-" s)
                           (credit_limit env)) (remote w)) as [[reason | response] u].
      - eexists _, u. reflexivity.
      - destruct (ok response); cbn [negb]; destruct (json response);
          eexists _, u; reflexivity. }
    destruct Hrun as (outcome & u & Hrun).
    exists outcome, s, u. split; [reflexivity | exact Hrun].
  - left. unfold createOpenRouterKey. rewrite try_rethrow.
    unfold bind at 1. unfold interpolate.
    destruct (ToString email) as [shown | ]; [ | eexists; reflexivity ].
    unfold ret at 1. cbv beta iota. unfold bind at 1.
    destruct email; try discriminate Hkind; eexists; reflexivity.
Qed.

(** X6. With registration enabled and a non-empty email, an invite whose
    duplicate check cannot fetch the listing (a page answered with an error
    status, a transport failure, a body that is not JSON) is answered 500
    with the text of that failure, and no key is created. *)
Theorem invite_listing_failure w fuel req fields props e err w1 :
  route req = Invite ->
  fs w = Holds (JObj fields) ->
  truthy (own_property "registrationEnabled" fields) = true ->
  req_body req = JObj props ->
  own_property "email" props = JStr e ->
  e <> "" ->
  fetch_pages false "Failed to fetch keys: " fuel 0 [] w = (Throw err, w1) ->
  respond env fuel req w
  = (Some (mkRes 500 (JsonBody (JObj [("success", JBool false);
                                      ("message", JStr "Failed to create API key");
                                      ("error", JStr (message err))]))),
     w1)
  /\ exists sent, calls w1 = calls w ++ sent /\ existsb is_creation sent = false.
Proof.
  intros Hroute Hfs Hflag Hbody Hemail Hne Hrun. split.
  - unfold respond. rewrite (@invite_enabled w fuel req fields props Hroute Hfs Hflag Hbody).
    rewrite Hemail, (truthy_nonempty Hne). cbn [negb].
    unfold try_catch. unfold bind at 1. unfold interpolate at 1. cbn [ToString].
    unfold ret at 1. unfold bind at 1. unfold checkExistingEmail. rewrite try_rethrow.
    unfold bind at 1. rewrite Hrun. reflexivity.
  - destruct (@fetch_pages_frame U false _ fuel 0 [] w _ w1 Hrun) as (_ & sent & Hcalls & Hsent).
    exists sent. split; [exact Hcalls | apply listing_is_no_creation; exact Hsent].
Qed.

(** X7. With registration enabled, a non-empty email that no listed key is
    named after, and an upstream that turns the creation down, the invite is
    answered 500 and the error it reports is the [message] of the upstream
    body when that is a non-empty string, and otherwise the fixed text
    followed by the status text. *)
Theorem invite_creation_failure w fuel req fields props e allKeys w1 response data u2 :
  route req = Invite ->
  fs w = Holds (JObj fields) ->
  truthy (own_property "registrationEnabled" fields) = true ->
  req_body req = JObj props ->
  own_property "email" props = JStr e ->
  e <> "" ->
  fetch_pages false "Failed to fetch keys: " fuel 0 [] w = (Return allKeys, w1) ->
  (forall k, In k allKeys -> name k <> ("Goose Hacknight - " ++ e)%string) ->
  serve U (PostKey ("Goose Hacknight - " ++ e) (replace_first "@" "-at-" e) (credit_limit env))
    (remote w1) = (Responded response, u2) ->
  ok response = false ->
  json response = Some data ->
  (forall m, body_message data = Some m -> m <> "" ->
     respond env fuel req w
     = (Some (mkRes 500 (JsonBody (JObj [("success", JBool false);
                                         ("message", JStr "Failed to create API key");
                                         ("error", JStr m)]))),
        mkWorld (fs w1) u2
          (calls w1 ++ [PostKey ("Goose Hacknight - " ++ e) (replace_first "@" "-at-" e)
                          (credit_limit env)])))
  /\ (body_message data = None \/ body_message data = Some "" ->
      respond env fuel req w
      = (Some (mkRes 500
                 (JsonBody
                    (JObj [("success", JBool false);
                           ("message", JStr "Failed to create API key");
                           ("error",
                            JStr ("Failed to create OpenRouter API key: "
                                  ++ statusText response))]))),
         mkWorld (fs w1) u2
           (calls w1 ++ [PostKey ("Goose Hacknight - " ++ e) (replace_first "@" "-at-" e)
                           (credit_limit env)]))).
Proof.
  intros Hroute Hfs Hflag Hbody Hemail Hne Hrun Hfresh Hserve Hok Hjson.
  pose proof (@checkExistingEmail_spec U fuel (JStr e) e w allKeys w1 eq_refl Hrun) as Hcheck.
  assert (Hnone : existsb (fun key => String.eqb (name key) ("Goose Hacknight - " ++ e))
                    allKeys = false).
  { apply not_true_is_false. intros Hdup. apply name_match_iff in Hdup.
    destruct Hdup as (k & Hin & Hk). exact (Hfresh k Hin Hk). }
  assert (Hrun' : respond env fuel req w
    = (Some (mkRes 500
               (JsonBody
                  (JObj [("success", JBool false);
                         ("message", JStr "Failed to create API key");
                         ("error",
                          JStr (match body_message data with
                                | Some m =>
                                    if String.eqb m ""
                                    then "Failed to create OpenRouter API key: "
                                         ++ statusText response
                                    else m
                                | None =>
                                    "Failed to create OpenRouter API key: "
                                    ++ statusText response
                                end))]))),
       mkWorld (fs w1) u2
         (calls w1 ++ [PostKey ("Goose Hacknight - " ++ e) (replace_first "@" "-at-" e)
                         (credit_limit env)]))).
  { unfold respond. rewrite (@invite_enabled w fuel req fields props Hroute Hfs Hflag Hbody).
    rewrite Hemail, (truthy_nonempty Hne). cbn [negb].
    unfold try_catch. unfold bind at 1. unfold interpolate at 1. cbn [ToString].
    unfold ret at 1. unfold bind at 1. rewrite Hcheck, Hnone.
    unfold bind at 1. unfold createOpenRouterKey. rewrite try_rethrow.
    unfold bind at 1. unfold interpolate. cbn [ToString]. unfold ret at 1.
    unfold bind at 1. unfold ret at 1. unfold bind at 1. unfold fetch.
    rewrite Hserve, Hok. cbn [negb].
    unfold bind at 1. unfold response_json. rewrite Hjson. reflexivity. }
  split.
  - intros m Hm Hnonempty. rewrite Hrun', Hm.
    destruct (String.eqb_spec m ""); [contradiction | reflexivity].
  - intros [Hm | Hm]; rewrite Hrun', Hm; reflexivity.
Qed.

Lemma app_world fuel req w :
  snd (respond env fuel req w) = snd (app env fuel req w).
Proof.
  unfold respond. destruct (app env fuel req w) as [[res | e | ] w']; reflexivity.
Qed.

(** X8. Whatever the body and whatever the upstream answers, an invite
    sends listing requests and then at most one creation request, nothing
    else: it never deletes or disables.  A creation is only ever sent for a
    body whose [email] is a non-empty string [s], under the name
    ["Goose Hacknight - " ++ s], with the label that has the first [@] of
    [s] replaced and the configured credit limit. *)
Theorem invite_sends_listings_then_one_creation w fuel req :
  route req = Invite ->
  exists sent,
    calls (snd (respond env fuel req w)) = calls w ++ sent
    /\ (forallb is_listing sent = true
        \/ exists listings props s,
             req_body req = JObj props
             /\ own_property "email" props = JStr s
             /\ String.eqb s "" = false
             /\ sent = listings
                       ++ [PostKey ("Goose Hacknight - " ++ s) (replace_first "@" "-at-" s)
                             (credit_limit env)]
             /\ forallb is_listing listings = true).
Proof.
  intros Hroute. rewrite app_world.
  assert (Hnone : forall w', calls w' = calls w ->
            exists sent, calls w' = calls w ++ sent
              /\ (forallb is_listing sent = true
                  \/ exists listings props s,
                       req_body req = JObj props
                       /\ own_property "email" props = JStr s
                       /\ String.eqb s "" = false
                       /\ sent = listings
                                 ++ [PostKey ("Goose Hacknight - " ++ s)
                                       (replace_first "@" "-at-" s) (credit_limit env)]
                       /\ forallb is_listing listings = true)).
  { intros w' Hsame. exists []. rewrite app_nil_r. split; [exact Hsame | left; reflexivity]. }
  remember (snd (app env fuel req w)) as w' eqn:Hw'.
  unfold app in Hw'. rewrite Hroute in Hw'. unfold invite, try_catch in Hw'.
  unfold bind at 1 in Hw'.
  destruct (loadConfig_returns w) as (config & file' & Hload).
  rewrite Hload in Hw'.
  set (w0 := mkWorld file' (remote w) (calls w)) in *.
  assert (Hw0 : calls w0 = calls w) by reflexivity.
  unfold bind at 1 in Hw'.
  destruct (get_property_outcome config "registrationEnabled" w0) as [[e He] | [flag Hflag]].
  { rewrite He in Hw'. subst w'. apply Hnone; reflexivity. }
  rewrite Hflag in Hw'.
  destruct (truthy flag); cbn [negb] in Hw';
    [ | subst w'; apply Hnone; reflexivity ].
  unfold bind at 1 in Hw'.
  destruct (req_body req) as [ | | b | text | str | items | props ] eqn:Hbody;
    try (subst w'; apply Hnone; reflexivity).
  cbn [get_property] in Hw'. unfold ret at 1 in Hw'.
  destruct (truthy (own_property "email" props)) eqn:Htruthy; cbn [negb] in Hw';
    [ | subst w'; apply Hnone; reflexivity ].
  unfold bind at 1 in Hw'. unfold interpolate at 1 in Hw'.
  destruct (ToString (own_property "email" props)) as [shown | ];
    [ | subst w'; apply Hnone; reflexivity ].
  unfold ret at 1 in Hw'. unfold bind at 1 in Hw'.
  destruct (checkExistingEmail fuel (own_property "email" props) w0)
    as [[[ | ] | e | ] w1] eqn:Hcheck;
    apply checkExistingEmail_frame in Hcheck;
    destruct Hcheck as (_ & listings & Hcalls & Hlistings);
    rewrite Hw0 in Hcalls;
    try (subst w'; exists listings; split; [exact Hcalls | left; exact Hlistings]).
  unfold bind at 1 in Hw'.
  destruct (createOpenRouterKey_calls (own_property "email" props) w1)
    as [[outcome Hcreate] | (outcome & s & u & Hs & Hcreate)];
    rewrite Hcreate in Hw'.
  - exists listings. split; [ | left; exact Hlistings ].
    subst w'. destruct outcome; exact Hcalls.
  - exists (listings ++ [PostKey ("Goose Hacknight - " ++ s) (replace_first "@" "-at-" s)
                           (credit_limit env)]).
    split.
    + subst w'. destruct outcome; cbn [snd calls ret]; rewrite Hcalls, <- app_assoc;
        reflexivity.
    + right. exists listings, props, s. rewrite Hs in Htruthy. cbn in Htruthy.
      repeat split; trivial.
      destruct (String.eqb s ""); [discriminate | reflexivity].
Qed.

Lemma listKeys_frame fuel w outcome w1 :
  listKeys fuel w = (outcome, w1) ->
  fs w1 = fs w
  /\ exists sent, calls w1 = calls w ++ sent /\ forallb is_listing sent = true.
Proof.
  unfold listKeys. rewrite try_rethrow. apply fetch_pages_frame.
Qed.

(** X9. When the listing fails, the three admin handlers answer 500 with
    the text of the failure and their own fixed message; delete-all and
    disable-all have then sent nothing but listing requests: no key is
    deleted or disabled on a partial listing. *)
Theorem admin_listing_failure w fuel err w1 :
  listKeys fuel w = (Throw err, w1) ->
  admin_keys fuel w
  = (Return (mkRes 500 (JsonBody (JObj [("success", JBool false);
                                        ("message", JStr "Failed to list keys");
                                        ("error", JStr (message err))]))),
     w1)
  /\ delete_all fuel w
     = (Return (mkRes 500 (JsonBody (JObj [("success", JBool false);
                                           ("message", JStr "Failed to delete keys");
                                           ("error", JStr (message err))]))),
        w1)
  /\ disable_all fuel w
     = (Return (mkRes 500 (JsonBody (JObj [("success", JBool false);
                                           ("message", JStr "Failed to disable keys");
                                           ("error", JStr (message err))]))),
        w1)
  /\ exists sent, calls w1 = calls w ++ sent /\ forallb is_listing sent = true.
Proof.
  intros Hlist. repeat split.
  - unfold admin_keys, try_catch, bind. rewrite Hlist. reflexivity.
  - unfold delete_all, try_catch, bind. rewrite Hlist. reflexivity.
  - unfold disable_all, try_catch, bind. rewrite Hlist. reflexivity.
  - apply listKeys_frame in Hlist. tauto.
Qed.

(** X10. When the second listing of disable-all fails, the answer is 500
    "Failed to disable keys" although a disable request has gone out for
    every key of the first listing. *)
Theorem disable_all_relisting_failure w fuel keys w1 err w3 :
  listKeys fuel w = (Return keys, w1) ->
  listKeys fuel
    (mkWorld (fs w1) (snd (served U (map disabling keys) (remote w1)))
       (calls w1 ++ map disabling keys))
  = (Throw err, w3) ->
  disable_all fuel w
  = (Return (mkRes 500 (JsonBody (JObj [("success", JBool false);
                                        ("message", JStr "Failed to disable keys");
                                        ("error", JStr (message err))]))),
     w3)
  /\ exists relisting,
      calls w3 = calls w1 ++ map disabling keys ++ relisting
      /\ forallb is_listing relisting = true.
Proof.
  intros Hlist Hrelist. split.
  - unfold disable_all, try_catch.
    unfold bind at 1. rewrite Hlist.
    destruct (disable_batch keys w1) as (keys' & Hbatch).
    unfold bind at 1. rewrite Hbatch.
    unfold bind at 1. rewrite Hrelist. reflexivity.
  - apply listKeys_frame in Hrelist. cbn [fs calls] in Hrelist.
    destruct Hrelist as (_ & sent & Hcalls & Hsent).
    exists sent. rewrite Hcalls, <- app_assoc. split; [reflexivity | exact Hsent].
Qed.

(** X11. Against an upstream that answers every listing request with a
    page of at least 100 keys the paging loop never ends: whatever the
    number of rounds it is granted, [listKeys] is still running, having sent
    one request per round, and so the admin listing route never answers. *)
Theorem listKeys_endless :
  (forall offset u,
      exists response data u',
        serve U (GetKeys true offset) u = (Responded response, u')
        /\ ok response = true
        /\ json response = Some data
        /\ PAGE <= List.length (data_or_empty data)) ->
  forall fuel w,
    fst (listKeys fuel w) = Pending
    /\ calls (snd (listKeys fuel w)) = calls w ++ map (GetKeys true) (offsets 0 fuel)
    /\ fst (admin_keys fuel w) = Pending.
Proof.
  intros Hfull fuel w.
  assert (Hloop : forall fuel offset acc w,
            fst (fetch_pages true "Failed to list keys: " fuel offset acc w) = Pending
            /\ calls (snd (fetch_pages true "Failed to list keys: " fuel offset acc w))
               = calls w ++ map (GetKeys true) (offsets offset fuel)).
  { clear fuel w. induction fuel as [ | fuel IH]; intros offset acc w.
    - cbn. rewrite app_nil_r. split; reflexivity.
    - destruct (Hfull offset (remote w)) as (response & data & u' & Hserve & Hok & Hjson & Hlen).
      rewrite (@fetch_pages_step U true _ fuel offset acc w response data u' Hserve Hok Hjson).
      replace (Nat.ltb (List.length (data_or_empty data)) PAGE) with false
        by (symmetry; apply Nat.ltb_ge; exact Hlen).
      destruct (IH (offset + PAGE) (acc ++ data_or_empty data)
                  (mkWorld (fs w) u' (calls w ++ [GetKeys true offset]))) as (Hpending & Hcalls).
      split; [exact Hpending | ].
      rewrite Hcalls. cbn [calls offsets map]. rewrite <- app_assoc. reflexivity. }
  destruct (Hloop fuel 0 [] w) as (Hpending & Hcalls).
  assert (Hlist : fst (listKeys fuel w) = Pending)
    by (unfold listKeys; rewrite try_rethrow; exact Hpending).
  split; [exact Hlist | split].
  - unfold listKeys. rewrite try_rethrow. exact Hcalls.
  - unfold admin_keys, try_catch, bind.
    destruct (listKeys fuel w) as [[keys | e | ] w']; cbn [fst] in Hlist;
      try discriminate Hlist. reflexivity.
Qed.

(** X12. A config file that parses to something that is no object.  For
    [null] both routes fail on the property access: the status route lets
    the exception through to the framework, the invite route answers its
    own 500.  For any other such value (a number, a string, a boolean, an
    array) the flag reads as [undefined]: the status body has no
    [registrationEnabled] and invites are turned down with 403. *)
Theorem config_not_an_object w fuel token payload req v :
  fs w = Holds v ->
  is_object v = false ->
  route req = Invite ->
  (v = JNull ->
     respond env fuel (mkReq RegistrationStatus token payload) w
     = (Some (mkRes 500 ErrorPage), w)
     /\ respond env fuel req w
        = (Some (mkRes 500
                   (JsonBody
                      (JObj [("success", JBool false);
                             ("message", JStr "Failed to create API key");
                             ("error",
                              JStr "Cannot read properties of null (reading 'registrationEnabled')")]))),
           w))
  /\ (v <> JNull -> v <> JUndefined ->
      respond env fuel (mkReq RegistrationStatus token payload) w
      = (Some (mkRes 200 (JsonBody (JObj []))), w)
      /\ respond env fuel req w
         = (Some (mkRes 403
                    (JsonBody
                       (JObj [("success", JBool false);
                              ("message", JStr "Registration is currently closed")]))),
            w)).
Proof.
  intros Hfs Hobj Hroute. split.
  - intros ->. split.
    + unfold respond, app; cbn [route]. unfold registration_status, bind.
      rewrite (loadConfig_holds _ Hfs). reflexivity.
    + unfold respond, app. rewrite Hroute. unfold invite, try_catch, bind.
      rewrite (loadConfig_holds _ Hfs). reflexivity.
  - intros Hnull Hundef. split.
    + unfold respond, app; cbn [route]. unfold registration_status, bind.
      rewrite (loadConfig_holds _ Hfs).
      destruct v; try discriminate Hobj; try congruence; reflexivity.
    + unfold respond, app. rewrite Hroute. unfold invite, try_catch, bind.
      rewrite (loadConfig_holds _ Hfs).
      destruct v; try discriminate Hobj; try congruence; reflexivity.
Qed.

(** X13. Loading the config a second time changes nothing and returns what
    the first load returned.  A missing file is created by the first load
    and exists ever after; an unparseable file is never repaired, every
    load of it falls back to the default. *)
Theorem loadConfig_twice w :
  loadConfig (snd (loadConfig w)) = (fst (loadConfig w), snd (loadConfig w))
  /\ (fs w = Missing -> fs (snd (loadConfig w)) = Holds defaultConfig)
  /\ (forall raw, fs w = Garbled raw ->
        fs (snd (loadConfig w)) = Garbled raw
        /\ fst (loadConfig (snd (loadConfig w))) = Return defaultConfig).
Proof.
  destruct w as [file u tr]; destruct file as [ | raw | v ]; cbn [fs];
    (split; [reflexivity | split; [ intros H; try discriminate H; reflexivity | ] ]);
    intros raw' H; try discriminate H.
  injection H as <-. split; reflexivity.
Qed.

(** X14. The two revisions of the config store return the same config on
    every state of the file; the earlier one never touches the file, the
    later one differs from it only in creating a missing file. *)
Theorem loadConfig_revisions_agree w :
  fst (Earlier.loadConfig w) = fst (loadConfig w)
  /\ snd (Earlier.loadConfig w) = w
  /\ (fs w = Missing \/ snd (loadConfig w) = w).
Proof.
  destruct w as [file u tr]; destruct file as [ | raw | v ];
    repeat split; try reflexivity; cbn [fs]; auto.
Qed.

Lemma substring_all (s : string) : String.substring 0 (String.length s) s = s.
Proof.
  induction s as [ | c s IH]; [reflexivity | ].
  cbn [String.length String.substring]. rewrite IH. reflexivity.
Qed.

(** X15. The label sent with a creation request is the email with its
    first [@] turned into [-at-]: what stands before that [@] and all that
    follows it, any further [@] included, is kept as it is, and an email
    without [@] is its own label. *)
Theorem label_replaces_first_at (a b : string) :
  mentions "@" a = false ->
  replace_first "@" "-at-" (a ++ "@" ++ b) = (a ++ "-at-" ++ b)%string
  /\ replace_first "@" "-at-" a = a.
Proof.
  induction a as [ | c a IH]; intros Hno.
  - split; [ | reflexivity ].
    assert (Hempty : String.prefix "" b = true) by (destruct b; reflexivity).
    cbn -[String.substring]. rewrite Hempty, Nat.sub_0_r.
    cbn [String.substring]. rewrite substring_all. reflexivity.
  - cbn [mentions] in Hno. apply orb_false_elim in Hno. destruct Hno as [Hc Ha].
    destruct (IH Ha) as [IH1 IH2].
    assert (Hprefix : forall rest, String.prefix "@" (String c rest) = false).
    { intros rest. cbn [String.prefix].
      destruct (ascii_dec "@" c) as [<- | _]; [ | reflexivity ].
      cbn in Hc. discriminate Hc. }
    split.
    + change ((String c a ++ "@" ++ b)%string) with (String c (a ++ "@" ++ b)%string).
      cbn [replace_first]. rewrite Hprefix, IH1. reflexivity.
    + cbn [replace_first]. rewrite Hprefix, IH2. reflexivity.
Qed.

End Behaviour.

(** * Further behaviour in front of the reference key service *)

Section ReferenceBehaviour.

Variable env : Env.

Local Arguments mkWorld : clear implicits.

Lemma PAGE_positive : 0 < PAGE.
Proof. unfold PAGE. lia. Qed.

Lemma visible_everything st : KeyService.visible true st = KeyService.keys st.
Proof.
  unfold KeyService.visible.
  induction (KeyService.keys st) as [ | k l IH]; [reflexivity | ].
  cbn [filter KeyService.listed orb]. rewrite IH. reflexivity.
Qed.

Lemma visible_nothing st : all_disabled st -> KeyService.visible false st = [].
Proof.
  unfold all_disabled, KeyService.visible.
  induction (KeyService.keys st) as [ | k l IH]; intros Hall; [reflexivity | ].
  cbn [filter]. unfold KeyService.listed at 1.
  rewrite (Hall k (or_introl eq_refl)). cbn [negb orb].
  apply IH. intros k' Hin. apply Hall. right. exact Hin.
Qed.

(** [listKeys] against the reference service. *)
Lemma listKeys_on_service fuel file st tr :
  List.length (KeyService.keys st) < fuel * PAGE ->
  exists sent,
    listKeys fuel (mkWorld KeyService.upstream file st tr)
    = (Return (KeyService.keys st), mkWorld KeyService.upstream file st (tr ++ sent))
    /\ forallb is_listing sent = true.
Proof.
  intros Hfuel.
  destruct (@listing_complete true "Failed to list keys: " fuel 0 [] file st tr)
    as (sent & Hrun).
  { rewrite visible_everything. lia. }
  cbn [app skipn] in Hrun. rewrite visible_everything in Hrun.
  exists sent. split.
  - unfold listKeys. rewrite try_rethrow. exact Hrun.
  - apply fetch_pages_frame in Hrun. cbn [calls] in Hrun.
    destruct Hrun as (_ & sent' & Hcalls & Hsent).
    apply app_inv_head in Hcalls. subst sent'. exact Hsent.
Qed.

(** X16. With rounds enough for every page, the admin listing returns
    every key the service holds, disabled ones included, in the service's
    order, and changes nothing upstream. *)
Theorem admin_keys_lists_everything fuel file st tr :
  List.length (KeyService.keys st) < fuel * PAGE ->
  exists sent,
    admin_keys fuel (mkWorld KeyService.upstream file st tr)
    = (Return (res_json 200 (JObj [("data", JArr (map key_value (KeyService.keys st)))])),
       mkWorld KeyService.upstream file st (tr ++ sent))
    /\ forallb is_listing sent = true.
Proof.
  intros Hfuel. destruct (@listKeys_on_service fuel file st tr Hfuel) as (sent & Hlist & Hsent).
  exists sent. split; [ | exact Hsent ].
  unfold admin_keys, try_catch, bind. rewrite Hlist. reflexivity.
Qed.

Lemma filter_twice (A : Type) (f g : A -> bool) (l : list A) :
  filter f (filter g l) = filter (fun x => g x && f x) l.
Proof.
  induction l as [ | x l IH]; [reflexivity | ].
  cbn [filter]. destruct (g x); cbn [andb filter]; rewrite IH; reflexivity.
Qed.

Lemma filter_none (A : Type) (f : A -> bool) (l : list A) :
  (forall x, In x l -> f x = false) -> filter f l = [].
Proof.
  induction l as [ | x l IH]; intros Hall; [reflexivity | ].
  cbn [filter]. rewrite (Hall x (or_introl eq_refl)).
  apply IH. intros y Hin. apply Hall. right. exact Hin.
Qed.

Lemma known_iff h st :
  KeyService.known h st = true <-> exists k, In k (KeyService.keys st) /\ hash k = h.
Proof.
  unfold KeyService.known. rewrite existsb_exists.
  split; intros (k & Hin & Hk); exists k; split; trivial; apply String.eqb_eq; exact Hk.
Qed.

(** One deletion on the reference service: the keys of that hash are gone,
    whether there were any or not. *)
Lemma deletion_effect h (st : ustate KeyService.upstream) :
  KeyService.keys (snd (serve KeyService.upstream (DeleteKey h) st))
  = filter (fun k => negb (String.eqb (hash k) h)) (KeyService.keys st)
  /\ KeyService.minted (snd (serve KeyService.upstream (DeleteKey h) st))
     = KeyService.minted st
  /\ succeeded (fst (serve KeyService.upstream (DeleteKey h) st)) = KeyService.known h st.
Proof.
  cbn [serve KeyService.upstream KeyService.step].
  destruct (KeyService.known h st) eqn:Hknown;
    cbn [fst snd KeyService.keys KeyService.minted]; repeat split.
  unfold KeyService.known in Hknown.
  induction (KeyService.keys st) as [ | k l IH]; [reflexivity | ].
  cbn [existsb] in Hknown. apply orb_false_elim in Hknown. destruct Hknown as [Hk Hl].
  cbn [filter]. rewrite Hk. cbn [negb]. rewrite <- (IH Hl). reflexivity.
Qed.

Lemma deletions_effect (l : list Key) : forall st,
  KeyService.keys (snd (served KeyService.upstream (map deletion l) st))
  = filter (fun k => negb (existsb (fun k' => String.eqb (hash k) (hash k')) l))
      (KeyService.keys st)
  /\ KeyService.minted (snd (served KeyService.upstream (map deletion l) st))
     = KeyService.minted st.
Proof.
  induction l as [ | a l IH]; intros st.
  - cbn. split; [ | reflexivity ].
    induction (KeyService.keys st) as [ | k ks IHk]; [reflexivity | ].
    cbn [filter]. rewrite <- IHk. reflexivity.
  - cbn [map]. rewrite served_cons. cbn [snd].
    change (deletion a) with (DeleteKey (hash a)).
    destruct (deletion_effect (hash a) st) as (Hkeys & Hminted & _).
    destruct (IH (snd (serve KeyService.upstream (DeleteKey (hash a)) st)))
      as (IHkeys & IHminted).
    split; [ | exact (eq_trans IHminted Hminted) ].
    refine (eq_trans IHkeys _). rewrite Hkeys.
    rewrite filter_twice. apply filter_ext. intros k. cbn [existsb].
    rewrite negb_orb. reflexivity.
Qed.

Lemma deletions_succeed (l : list Key) : forall st,
  NoDup (map hash l) ->
  (forall k, In k l -> In k (KeyService.keys st)) ->
  forallb succeeded (fst (served KeyService.upstream (map deletion l) st)) = true.
Proof.
  induction l as [ | a l IH]; intros st Hnodup Hin; [reflexivity | ].
  cbn [map]. rewrite served_cons. cbn [fst forallb].
  change (deletion a) with (DeleteKey (hash a)).
  destruct (deletion_effect (hash a) st) as (Hkeys & _ & Hok).
  rewrite Hok.
  assert (Hknown : KeyService.known (hash a) st = true).
  { apply known_iff. exists a. split; [apply Hin; left | ]; reflexivity. }
  rewrite Hknown. cbn [andb].
  inversion Hnodup as [ | ? ? Hfresh Hnodup']; subst.
  apply IH; [exact Hnodup' | ].
  intros k Hk. rewrite Hkeys. apply filter_In. split; [apply Hin; right; exact Hk | ].
  apply negb_true_iff. apply String.eqb_neq. intros Hsame.
  apply Hfresh. rewrite <- Hsame. apply in_map. exact Hk.
Qed.

(** X17. With rounds enough for every page, delete-all leaves the service
    without a single key, whatever it answers; when no two keys share a
    hash every deletion succeeds and the answer is 200 with the count of the
    keys deleted. *)
Theorem delete_all_empties_service fuel file st tr :
  List.length (KeyService.keys st) < fuel * PAGE ->
  remote (snd (delete_all fuel (mkWorld KeyService.upstream file st tr)))
  = KeyService.mkState [] (KeyService.minted st)
  /\ (NoDup (map hash (KeyService.keys st)) ->
      fst (delete_all fuel (mkWorld KeyService.upstream file st tr))
      = Return (mkRes 200
                  (JsonBody
                     (JObj [("success", JBool true);
                            ("message",
                             JStr ("Successfully deleted "
                                   ++ decimal (List.length (KeyService.keys st))
                                   ++ " keys"))])))).
Proof.
  intros Hfuel.
  destruct (@listKeys_on_service fuel file st tr Hfuel) as (sent & Hlist & _).
  assert (Hrun : delete_all fuel (mkWorld KeyService.upstream file st tr)
    = (match find (fun r => negb (succeeded r))
               (fst (served KeyService.upstream (map deletion (KeyService.keys st)) st)) with
       | Some r =>
           Return (res_json 500 (JObj [("success", JBool false);
                                       ("message", JStr "Failed to delete keys");
                                       ("error", JStr (message (delete_failure r)))]))
       | None =>
           Return (res_json 200
                     (JObj [("success", JBool true);
                            ("message",
                             JStr ("Successfully deleted "
                                   ++ decimal (List.length (KeyService.keys st))
                                   ++ " keys"))]))
       end,
       mkWorld KeyService.upstream file
         (snd (served KeyService.upstream (map deletion (KeyService.keys st)) st))
         ((tr ++ sent) ++ map deletion (KeyService.keys st)))).
  { unfold delete_all, try_catch. unfold bind at 1. rewrite Hlist.
    unfold bind at 1. rewrite delete_batch. cbn [fs remote calls].
    destruct (find _ _); reflexivity. }
  rewrite Hrun. cbn [fst snd remote]. split.
  - destruct (deletions_effect (KeyService.keys st) st) as (Hkeys & Hminted).
    destruct (snd (served KeyService.upstream (map deletion (KeyService.keys st)) st))
      as [ks m]. cbn [KeyService.keys KeyService.minted] in Hkeys, Hminted.
    subst m. f_equal. rewrite Hkeys. apply filter_none.
    intros k Hin. apply negb_false_iff. apply existsb_exists.
    exists k. split; [exact Hin | apply String.eqb_refl].
  - intros Hnodup.
    rewrite (find_no_failure _ (@deletions_succeed (KeyService.keys st) st Hnodup
                                  (fun k H => H))).
    reflexivity.
Qed.

(** One disable request on the reference service: the keys of that hash
    become disabled copies of themselves. *)
Lemma disabling_effect h (st : ustate KeyService.upstream) :
  KeyService.keys (snd (serve KeyService.upstream (PatchKey h true) st))
  = map (fun k => if String.eqb (hash k) h then disabled_copy k else k) (KeyService.keys st)
  /\ KeyService.minted (snd (serve KeyService.upstream (PatchKey h true) st))
     = KeyService.minted st.
Proof.
  cbn [serve KeyService.upstream KeyService.step].
  destruct (KeyService.known h st) eqn:Hknown;
    cbn [fst snd KeyService.keys KeyService.minted]; split; try reflexivity.
  unfold KeyService.known in Hknown.
  induction (KeyService.keys st) as [ | k l IH]; [reflexivity | ].
  cbn [existsb] in Hknown. apply orb_false_elim in Hknown. destruct Hknown as [Hk Hl].
  cbn [map]. rewrite Hk, <- (IH Hl). reflexivity.
Qed.

Lemma disablings_effect (l : list Key) : forall st : ustate KeyService.upstream,
  KeyService.keys (snd (served KeyService.upstream (map disabling l) st))
  = map (fun k => if existsb (fun k' => String.eqb (hash k) (hash k')) l
                  then disabled_copy k else k)
      (KeyService.keys st)
  /\ KeyService.minted (snd (served KeyService.upstream (map disabling l) st))
     = KeyService.minted st.
Proof.
  induction l as [ | a l IH]; intros st.
  - cbn. split; [ | reflexivity ]. symmetry. apply map_id.
  - cbn [map]. rewrite served_cons. cbn [snd].
    change (disabling a) with (PatchKey (hash a) true).
    destruct (disabling_effect (hash a) st) as (Hkeys & Hminted).
    destruct (IH (snd (serve KeyService.upstream (PatchKey (hash a) true) st)))
      as (IHkeys & IHminted).
    split; [ | exact (eq_trans IHminted Hminted) ].
    refine (eq_trans IHkeys _). rewrite Hkeys, map_map.
    apply map_ext. intros k. cbn [existsb].
    destruct (String.eqb (hash k) (hash a)); cbn [orb]; [ | reflexivity ].
    destruct (existsb _ l); reflexivity.
Qed.

Lemma disabled_copies_all_disabled (l : list Key) (m : nat) :
  all_disabled (KeyService.mkState (map disabled_copy l) m).
Proof.
  intros k Hin. cbn [KeyService.keys] in Hin. apply in_map_iff in Hin.
  destruct Hin as (k0 & <- & _). reflexivity.
Qed.

(** X18. With rounds enough for every page, disable-all leaves every key of
    the service disabled and otherwise as it was, and answers 200 with the
    count of the keys and the listing of their disabled copies. *)
Theorem disable_all_disables_everything fuel file st tr :
  List.length (KeyService.keys st) < fuel * PAGE ->
  exists sent,
    disable_all fuel (mkWorld KeyService.upstream file st tr)
    = (Return (res_json 200
                 (JObj [("success", JBool true);
                        ("message",
                         JStr ("Successfully processed "
                               ++ decimal (List.length (KeyService.keys st)) ++ " keys"));
                        ("data",
                         JArr (map key_value (map disabled_copy (KeyService.keys st))))])),
       mkWorld KeyService.upstream file
         (KeyService.mkState (map disabled_copy (KeyService.keys st)) (KeyService.minted st))
         (tr ++ sent))
    /\ all_disabled
         (KeyService.mkState (map disabled_copy (KeyService.keys st)) (KeyService.minted st)).
Proof.
  intros Hfuel.
  destruct (@listKeys_on_service fuel file st tr Hfuel) as (sent & Hlist & _).
  destruct (disable_batch (KeyService.keys st)
              (mkWorld KeyService.upstream file st (tr ++ sent))) as (keys' & Hbatch).
  cbn [fs remote calls] in Hbatch.
  assert (Hstate : snd (served KeyService.upstream (map disabling (KeyService.keys st)) st)
                   = KeyService.mkState (map disabled_copy (KeyService.keys st))
                       (KeyService.minted st)).
  { destruct (disablings_effect (KeyService.keys st) st) as (Hkeys & Hminted).
    destruct (snd (served KeyService.upstream (map disabling (KeyService.keys st)) st))
      as [ks m]. cbn [KeyService.keys KeyService.minted] in Hkeys, Hminted.
    subst m. f_equal. rewrite Hkeys. apply map_ext_in.
    intros k Hin.
    replace (existsb (fun k' => String.eqb (hash k) (hash k')) (KeyService.keys st))
      with true; [reflexivity | ].
    symmetry. apply existsb_exists. exists k. split; [exact Hin | apply String.eqb_refl]. }
  rewrite Hstate in Hbatch.
  destruct (@listKeys_on_service fuel file
              (KeyService.mkState (map disabled_copy (KeyService.keys st))
                 (KeyService.minted st))
              ((tr ++ sent) ++ map disabling (KeyService.keys st)))
    as (sent' & Hrelist & _).
  { cbn [KeyService.keys]. rewrite length_map. exact Hfuel. }
  cbn [KeyService.keys] in Hrelist.
  exists (sent ++ map disabling (KeyService.keys st) ++ sent').
  split; [ | apply disabled_copies_all_disabled ].
  unfold disable_all, try_catch.
  unfold bind at 1. rewrite Hlist.
  unfold bind at 1. rewrite Hbatch.
  unfold bind at 1. rewrite Hrelist.
  rewrite <- !app_assoc. reflexivity.
Qed.

Lemma created_keys st n l lim :
  exists k,
    KeyService.keys (created st n l lim) = KeyService.keys st ++ [k]
    /\ name k = n /\ disabled k = false.
Proof.
  eexists. split; [reflexivity | split; reflexivity].
Qed.

(** An invite for an address that no listed key is named after, against
    the reference service. *)
Lemma invite_fresh_on_service fuel req st tr fields props e :
  route req = Invite ->
  truthy (own_property "registrationEnabled" fields) = true ->
  req_body req = JObj props ->
  own_property "email" props = JStr e ->
  e <> "" ->
  (forall k, In k (KeyService.visible false st) -> name k <> ("Goose Hacknight - " ++ e)%string) ->
  List.length (KeyService.visible false st) < fuel * PAGE ->
  exists sent,
    has_status 200
      (fst (respond env fuel req (mkWorld KeyService.upstream (Holds (JObj fields)) st tr)))
    = true
    /\ snd (respond env fuel req (mkWorld KeyService.upstream (Holds (JObj fields)) st tr))
       = mkWorld KeyService.upstream (Holds (JObj fields))
           (created st ("Goose Hacknight - " ++ e) (replace_first "@" "-at-" e)
              (credit_limit env))
           (tr ++ sent).
Proof.
  intros Hroute Hflag Hbody Hemail Hne Hfresh Hfuel.
  destruct (@listing_complete false "Failed to fetch keys: " fuel 0 [] (Holds (JObj fields))
              st tr) as (sent & Hrun); [ lia | ].
  cbn [List.app skipn] in Hrun.
  pose proof (@checkExistingEmail_spec KeyService.upstream fuel (JStr e) e _ _ _ eq_refl Hrun)
    as Hcheck.
  assert (Hnone : existsb (fun key => String.eqb (name key) ("Goose Hacknight - " ++ e))
                    (KeyService.visible false st) = false).
  { apply not_true_is_false. intros Hdup. apply name_match_iff in Hdup.
    destruct Hdup as (k & Hin & Hk). exact (Hfresh k Hin Hk). }
  exists (sent ++ [PostKey ("Goose Hacknight - " ++ e) (replace_first "@" "-at-" e)
                     (credit_limit env)]).
  enough (Hres : exists res,
             respond env fuel req (mkWorld KeyService.upstream (Holds (JObj fields)) st tr)
             = (Some res,
                mkWorld KeyService.upstream (Holds (JObj fields))
                  (created st ("Goose Hacknight - " ++ e) (replace_first "@" "-at-" e)
                     (credit_limit env))
                  ((tr ++ sent)
                   ++ [PostKey ("Goose Hacknight - " ++ e) (replace_first "@" "-at-" e)
                         (credit_limit env)]))
             /\ status res = 200).
  { destruct Hres as (res & Hres & Hstatus). rewrite Hres. cbn [fst snd has_status].
    rewrite Hstatus, app_assoc. split; reflexivity. }
  eexists. split; [ | shelve ].
  unfold respond.
  rewrite (@invite_enabled KeyService.upstream env
             (mkWorld KeyService.upstream (Holds (JObj fields)) st tr) fuel req fields props
             Hroute eq_refl Hflag Hbody).
  rewrite Hemail, (truthy_nonempty Hne). cbn [negb].
  unfold try_catch. unfold bind at 1. unfold interpolate at 1. cbn [ToString].
  unfold ret at 1. unfold bind at 1. rewrite Hcheck, Hnone.
  unfold bind at 1. unfold createOpenRouterKey. rewrite try_rethrow.
  cbv beta iota delta [bind interpolate ret fetch response_json throw]. cbn [ToString].
  cbn [serve KeyService.upstream KeyService.step KeyService.answer ok json negb
       fs remote calls fst snd].
  reflexivity.
  Unshelve. reflexivity.
Qed.

Lemma visible_created st n l lim :
  exists k,
    KeyService.visible false (created st n l lim) = KeyService.visible false st ++ [k]
    /\ name k = n.
Proof.
  eexists. split.
  - unfold KeyService.visible, created. cbn [KeyService.step snd KeyService.keys].
    rewrite filter_app. reflexivity.
  - reflexivity.
Qed.

(** X19. On a service whose keys are all disabled, the state disable-all
    leaves behind, the duplicate check sees nothing: with registration
    enabled every non-empty address is given a key, an address that already
    holds one included, which then holds one more. *)
Theorem every_address_can_register_again fuel req st tr fields props e :
  route req = Invite ->
  truthy (own_property "registrationEnabled" fields) = true ->
  req_body req = JObj props ->
  own_property "email" props = JStr e ->
  e <> "" ->
  all_disabled st ->
  0 < fuel ->
  has_status 200
    (fst (respond env fuel req (mkWorld KeyService.upstream (Holds (JObj fields)) st tr)))
  = true
  /\ remote (snd (respond env fuel req
                    (mkWorld KeyService.upstream (Holds (JObj fields)) st tr)))
     = created st ("Goose Hacknight - " ++ e) (replace_first "@" "-at-" e) (credit_limit env)
  /\ List.length
       (KeyService.keys_of_email e
          (remote (snd (respond env fuel req
                          (mkWorld KeyService.upstream (Holds (JObj fields)) st tr)))))
     = S (List.length (KeyService.keys_of_email e st)).
Proof.
  intros Hroute Hflag Hbody Hemail Hne Hall Hfuel.
  pose proof (visible_nothing Hall) as Hvis.
  destruct (@invite_fresh_on_service fuel req st tr fields props e Hroute Hflag Hbody Hemail Hne)
    as (sent & Hstatus & Hworld).
  { rewrite Hvis. intros k []. }
  { rewrite Hvis. cbn [List.length]. apply Nat.mul_pos_pos; [exact Hfuel | apply PAGE_positive]. }
  rewrite Hworld. cbn [remote]. repeat split; [exact Hstatus | ].
  unfold KeyService.keys_of_email, created. cbn [KeyService.step snd KeyService.keys].
  rewrite filter_app, length_app. cbn [filter name].
  rewrite String.eqb_refl. cbn [List.length]. lia.
Qed.

(** X20. Registering the same address twice.  When the first invite goes
    through (registration enabled, a non-empty address that no listed key is
    named after, rounds enough for the listing and one key more), the same
    invite sent again is answered 400 "already registered" and leaves the
    service as the first one left it. *)
Theorem second_invite_is_turned_down fuel req st tr fields props e :
  route req = Invite ->
  truthy (own_property "registrationEnabled" fields) = true ->
  req_body req = JObj props ->
  own_property "email" props = JStr e ->
  e <> "" ->
  (forall k, In k (KeyService.visible false st) -> name k <> ("Goose Hacknight - " ++ e)%string) ->
  S (List.length (KeyService.visible false st)) < fuel * PAGE ->
  has_status 200
    (fst (respond env fuel req (mkWorld KeyService.upstream (Holds (JObj fields)) st tr)))
  = true
  /\ fst (respond env fuel req
            (snd (respond env fuel req
                    (mkWorld KeyService.upstream (Holds (JObj fields)) st tr))))
     = Some (mkRes 400
               (JsonBody
                  (JObj [("success", JBool false);
                         ("message",
                          JStr "This email has already been registered for the hackathon.")])))
  /\ remote (snd (respond env fuel req
                    (snd (respond env fuel req
                            (mkWorld KeyService.upstream (Holds (JObj fields)) st tr)))))
     = remote (snd (respond env fuel req
                      (mkWorld KeyService.upstream (Holds (JObj fields)) st tr))).
Proof.
  intros Hroute Hflag Hbody Hemail Hne Hfresh Hfuel.
  destruct (@invite_fresh_on_service fuel req st tr fields props e Hroute Hflag Hbody Hemail Hne
              Hfresh) as (sent & Hstatus & Hworld); [ lia | ].
  split; [exact Hstatus | ]. rewrite Hworld.
  set (st' := created st ("Goose Hacknight - " ++ e) (replace_first "@" "-at-" e)
                (credit_limit env)).
  destruct (visible_created st ("Goose Hacknight - " ++ e) (replace_first "@" "-at-" e)
              (credit_limit env)) as (k & Hvis & Hk).
  fold st' in Hvis.
  destruct (@listing_complete false "Failed to fetch keys: " fuel 0 [] (Holds (JObj fields))
              st' (tr ++ sent)) as (sent' & Hrun).
  { rewrite Hvis, length_app. cbn [List.length]. lia. }
  cbn [List.app skipn] in Hrun.
  pose proof (@checkExistingEmail_spec KeyService.upstream fuel (JStr e) e _ _ _ eq_refl Hrun)
    as Hcheck.
  assert (Hdup : existsb (fun key => String.eqb (name key) ("Goose Hacknight - " ++ e))
                   (KeyService.visible false st') = true).
  { rewrite Hvis, existsb_app. cbn [existsb]. rewrite Hk, String.eqb_refl.
    rewrite orb_true_r. reflexivity. }
  assert (Hres : respond env fuel req
                   (mkWorld KeyService.upstream (Holds (JObj fields)) st' (tr ++ sent))
                 = (Some (mkRes 400
                            (JsonBody
                               (JObj [("success", JBool false);
                                      ("message",
                                       JStr "This email has already been registered for the hackathon.")]))),
                    mkWorld KeyService.upstream (Holds (JObj fields)) st'
                      ((tr ++ sent) ++ sent'))).
  { unfold respond.
    rewrite (@invite_enabled KeyService.upstream env
               (mkWorld KeyService.upstream (Holds (JObj fields)) st' (tr ++ sent))
               fuel req fields props Hroute eq_refl Hflag Hbody).
    rewrite Hemail, (truthy_nonempty Hne). cbn [negb].
    unfold try_catch. unfold bind at 1. unfold interpolate at 1. cbn [ToString].
    unfold ret at 1. unfold bind at 1. rewrite Hcheck, Hdup. reflexivity. }
  rewrite Hres. split; reflexivity.
Qed.

End ReferenceBehaviour.

(** * The earlier revision of delete-all *)

Section EarlierRevision.

Variable U : Upstream.

Implicit Types (w : World U).

Lemma earlier_delete_all_run w bare response data u1 keys :
  serve U bare (remote w) = (Responded response, u1) ->
  ok response = true ->
  json response = Some data ->
  body_data data = Some keys ->
  Earlier.delete_all bare w
  = (match find (fun r => negb (succeeded r))
             (fst (served U (map deletion keys) u1)) with
     | Some r =>
         Return (res_json 500 (JObj [("success", JBool false);
                                     ("message", JStr "Failed to delete keys");
                                     ("error", JStr (message (delete_failure r)))]))
     | None =>
         Return (res_json 200
                   (JObj [("success", JBool true);
                          ("message",
                           JStr ("Successfully deleted "
                                 ++ decimal (List.length keys) ++ " keys"))]))
     end,
     mkWorld (fs w) (snd (served U (map deletion keys) u1))
       ((calls w ++ [bare]) ++ map deletion keys)).
Proof.
  intros Hserve Hok Hjson Hdata.
  assert (Hlist : Earlier.listKeys bare w
                  = (Return data, mkWorld (fs w) u1 (calls w ++ [bare]))).
  { unfold Earlier.listKeys. rewrite try_rethrow. unfold bind, fetch.
    rewrite Hserve, Hok. cbn [negb]. unfold response_json. rewrite Hjson. reflexivity. }
  unfold Earlier.delete_all, try_catch.
  unfold bind at 1. rewrite Hlist. rewrite Hdata.
  unfold bind at 1. unfold ret at 1.
  unfold bind at 1. rewrite delete_batch. cbn [fs remote calls].
  destruct (find _ _); reflexivity.
Qed.

(** X21. The earlier delete-all lists once: whatever the number of keys
    in the answer to its one listing request, a hundred or more included, it
    deletes those keys and asks for no further page.  When the answer has
    no [data] it answers 500 and deletes nothing. *)
Theorem earlier_delete_all_lists_once w bare response data u1 :
  serve U bare (remote w) = (Responded response, u1) ->
  ok response = true ->
  json response = Some data ->
  (forall keys,
      body_data data = Some keys ->
      snd (Earlier.delete_all bare w)
      = mkWorld (fs w) (snd (served U (map deletion keys) u1))
          (calls w ++ bare :: map deletion keys)
      /\ (forallb succeeded (fst (served U (map deletion keys) u1)) = true ->
          fst (Earlier.delete_all bare w)
          = Return (mkRes 200
                      (JsonBody
                         (JObj [("success", JBool true);
                                ("message",
                                 JStr ("Successfully deleted "
                                       ++ decimal (List.length keys) ++ " keys"))])))))
  /\ (body_data data = None ->
      Earlier.delete_all bare w
      = (Return (mkRes 500
                   (JsonBody
                      (JObj [("success", JBool false);
                             ("message", JStr "Failed to delete keys");
                             ("error",
                              JStr "Cannot read properties of undefined (reading 'map')")]))),
         mkWorld (fs w) u1 (calls w ++ [bare]))).
Proof.
  intros Hserve Hok Hjson.
  assert (Hlist : Earlier.listKeys bare w
                  = (Return data, mkWorld (fs w) u1 (calls w ++ [bare]))).
  { unfold Earlier.listKeys. rewrite try_rethrow. unfold bind, fetch.
    rewrite Hserve, Hok. cbn [negb]. unfold response_json. rewrite Hjson. reflexivity. }
  split.
  - intros keys Hdata.
    pose proof (@earlier_delete_all_run w bare response data u1 keys Hserve Hok Hjson Hdata)
      as Hrun.
    rewrite Hrun. cbn [fst snd]. split.
    + rewrite <- app_assoc. reflexivity.
    + intros Hall. rewrite (find_no_failure _ Hall). reflexivity.
  - intros Hdata. unfold Earlier.delete_all, try_catch.
    unfold bind at 1. rewrite Hlist. rewrite Hdata. reflexivity.
Qed.

End EarlierRevision.

(** X22. The earlier delete-all in front of the reference service, its
    bare listing read as the first page of the enabled keys: it deletes the
    keys of that page and no others.  A key whose hash is not the hash of a
    key on that page, be it disabled or past the first hundred, is still
    there afterwards, where the paged revision leaves nothing. *)
Theorem earlier_delete_all_first_page_only file st tr :
  KeyService.keys
    (remote (snd (Earlier.delete_all (GetKeys false 0)
                    (mkWorld (U := KeyService.upstream) file st tr))))
  = filter (fun k => negb (existsb (fun k' => String.eqb (hash k) (hash k'))
                             (KeyService.page false 0 st)))
      (KeyService.keys st)
  /\ calls (snd (Earlier.delete_all (GetKeys false 0)
                   (mkWorld (U := KeyService.upstream) file st tr)))
     = tr ++ GetKeys false 0 :: map deletion (KeyService.page false 0 st)
  /\ forall k,
       In k (KeyService.keys st) ->
       (forall k', In k' (KeyService.page false 0 st) -> hash k' <> hash k) ->
       In k (KeyService.keys
               (remote (snd (Earlier.delete_all (GetKeys false 0)
                               (mkWorld (U := KeyService.upstream) file st tr))))).
Proof.
  assert (Hrun : snd (Earlier.delete_all (GetKeys false 0)
                        (mkWorld (U := KeyService.upstream) file st tr))
                 = mkWorld (U := KeyService.upstream) file
                     (snd (served KeyService.upstream
                             (map deletion (KeyService.page false 0 st)) st))
                     ((tr ++ [GetKeys false 0])
                      ++ map deletion (KeyService.page false 0 st))).
  { rewrite (@earlier_delete_all_run KeyService.upstream
               (mkWorld (U := KeyService.upstream) file st tr) (GetKeys false 0)
               (mkResponse true "OK"
                  (Some (mkPayload (Some (KeyService.page false 0 st)) JUndefined JUndefined
                           JUndefined JUndefined JUndefined None)))
               (mkPayload (Some (KeyService.page false 0 st)) JUndefined JUndefined
                  JUndefined JUndefined JUndefined None)
               st (KeyService.page false 0 st) eq_refl eq_refl eq_refl eq_refl).
    reflexivity. }
  rewrite Hrun. cbn [remote calls].
  destruct (deletions_effect (KeyService.page false 0 st) st) as (Hkeys & _).
  split; [exact Hkeys | split].
  - rewrite <- app_assoc. reflexivity.
  - intros k Hin Hother.
    refine (eq_ind_r (fun l => In k l) _ Hkeys).
    apply filter_In. split; [exact Hin | ].
    apply negb_true_iff. apply not_true_is_false. intros Hex.
    apply existsb_exists in Hex. destruct Hex as (k' & Hin' & Heq).
    apply String.eqb_eq in Heq. exact (Hother k' Hin' (eq_sym Heq)).
Qed.

(** * The statements at work *)

(** A status request on a fresh deployment. *)
Lemma loadConfig_total_witness :
  respond Sample.env 0 (mkReq RegistrationStatus None JNull) (Sample.deployed Missing [])
  = (Some (mkRes 200 (JsonBody (JObj [("registrationEnabled", JBool false)]))),
     Sample.deployed (Sample.flag false) []).
Proof.
  apply (proj2 (proj2 (proj2
           (loadConfig_total Sample.env (Sample.deployed Missing []) 0 None JNull)))).
  reflexivity.
Defined.

(** The closed flag wins over a well-formed invitation. *)
Lemma invite_closed_witness :
  server Sample.env 1
    (mkIncoming Invite None (Text (Some (JObj [("email", JStr Sample.ada)]))))
    (Sample.deployed (Sample.flag false) [])
  = (Some (mkRes 403 (JsonBody (JObj [("success", JBool false);
                                      ("message", JStr "Registration is currently closed")]))),
     Sample.deployed (Sample.flag false) []).
Proof.
  exact (proj1 (@invite_closed KeyService.upstream Sample.env
                  (Sample.deployed (Sample.flag false) []) 1
                  (mkIncoming Invite None (Text (Some (JObj [("email", JStr Sample.ada)]))))
                  [("registrationEnabled", JBool false)]
                  (Sample.deployed (Sample.flag false) []) eq_refl eq_refl eq_refl)
           (JObj [("email", JStr Sample.ada)]) eq_refl).
Defined.

(** C1 as stated fails on a body the parser refuses.  With registration
    closed, an invite whose body is not JSON, and one whose body is a JSON
    string, are answered 400 by the parser, not 403. *)
Lemma invite_refused_body_counterexample :
  server Sample.env 1 (mkIncoming Invite None (Text None))
    (Sample.deployed (Sample.flag false) [])
  = (Some (mkRes 400 ErrorPage), Sample.deployed (Sample.flag false) [])
  /\ has_status 403
       (fst (server Sample.env 1 (mkIncoming Invite None (Text None))
               (Sample.deployed (Sample.flag false) [])))
     = false
  /\ server Sample.env 1 (mkIncoming Invite None (Text (Some (JStr Sample.ada))))
       (Sample.deployed (Sample.flag false) [])
     = (Some (mkRes 400 ErrorPage), Sample.deployed (Sample.flag false) []).
Proof.
  repeat split.
Qed.

(** A second invitation for an address that already has its key. *)
Lemma invite_duplicate_witness :
  respond Sample.env 1 (Sample.invite_of Sample.ada)
    (Sample.deployed (Sample.flag true) [Sample.k1])
  = (Some (mkRes 400
             (JsonBody
                (JObj [("success", JBool false);
                       ("message",
                        JStr "This email has already been registered for the hackathon.")]))),
     mkWorld (U := KeyService.upstream) (Sample.flag true) (Sample.service [Sample.k1])
       [GetKeys false 0]).
Proof.
  assert (Hne : Sample.ada <> "") by discriminate.
  assert (Hdup : exists k, In k [Sample.k1]
                           /\ name k = ("Goose Hacknight - " ++ Sample.ada)%string)
    by (exists Sample.k1; split; [left | ]; reflexivity).
  exact (proj1 (proj1 (@invite_duplicate KeyService.upstream Sample.env
                         (Sample.deployed (Sample.flag true) [Sample.k1]) 1
                         (Sample.invite_of Sample.ada)
                         [("registrationEnabled", JBool true)]
                         [("email", JStr Sample.ada)] Sample.ada [Sample.k1]
                         (mkWorld (U := KeyService.upstream) (Sample.flag true)
                            (Sample.service [Sample.k1]) [GetKeys false 0])
                         eq_refl eq_refl eq_refl eq_refl eq_refl Hne eq_refl) Hdup)).
Defined.

(** C2 as stated fails at the empty email: a key named exactly
    ["Goose Hacknight - " ++ ""] is listed upstream, yet the invite is turned
    down as lacking an email, not as already registered, and nothing is
    listed at all. *)
Lemma invite_empty_email_counterexample :
  In (Sample.key_of "" "hash-0" false)
     (KeyService.page false 0 (Sample.service [Sample.key_of "" "hash-0" false]))
  /\ name (Sample.key_of "" "hash-0" false) = ("Goose Hacknight - " ++ "")%string
  /\ respond Sample.env 1 (Sample.invite_of "")
       (Sample.deployed (Sample.flag true) [Sample.key_of "" "hash-0" false])
     = (Some (mkRes 400 (JsonBody (JObj [("success", JBool false);
                                         ("message", JStr "Email is required")]))),
        Sample.deployed (Sample.flag true) [Sample.key_of "" "hash-0" false]).
Proof.
  split; [left; reflexivity | split; reflexivity].
Qed.

(** A first invitation against the reference key service. *)
Lemma invite_creates_witness :
  fst (respond Sample.env 1 (Sample.invite_of Sample.ada)
         (Sample.deployed (Sample.flag true) []))
  = Some (mkRes 200
            (JsonBody
               (JObj [("success", JBool true);
                      ("apiKey", JStr "sk-or-v1-0");
                      ("keyHash", JStr "hash-0");
                      ("limit", JNum "5");
                      ("name", JStr "Goose Hacknight - ada@example.org");
                      ("disabled", JBool false);
                      ("message",
                       JStr "Your OpenRouter API key has been created successfully.")]))).
Proof.
  assert (Hne : Sample.ada <> "") by discriminate.
  assert (Hsecret : "sk-or-v1-0" <> "") by discriminate.
  assert (Hfresh : forall k : Key, In k [] ->
                     name k <> ("Goose Hacknight - " ++ Sample.ada)%string)
    by (intros k []).
  pose proof (proj1 (@invite_creates KeyService.upstream Sample.env
                       (Sample.deployed (Sample.flag true) []) 1
                       (Sample.invite_of Sample.ada)
                       [("registrationEnabled", JBool true)]
                       [("email", JStr Sample.ada)] Sample.ada []
                       (mkWorld (U := KeyService.upstream) (Sample.flag true)
                          (Sample.service []) [GetKeys false 0])
                       _ _ _ "sk-or-v1-0"
                       eq_refl eq_refl eq_refl eq_refl eq_refl Hne eq_refl Hfresh
                       eq_refl eq_refl eq_refl eq_refl Hsecret eq_refl)) as Hrun.
  exact (f_equal fst Hrun).
Defined.

(** Pages of 100, 100 and 37 keys played back by a stub: three requests,
    237 keys. *)
Lemma listKeys_paging_witness :
  listKeys 3
    (Sample.stubbed Missing
       [Scripted.page (Sample.batch 100); Scripted.page (Sample.batch 100);
        Scripted.page (Sample.batch 37)])
  = (Return (Sample.batch 100 ++ Sample.batch 100 ++ Sample.batch 37),
     mkWorld (U := Scripted.upstream) Missing []
       [GetKeys true 0; GetKeys true 100; GetKeys true 200])
  /\ List.length (Sample.batch 100 ++ Sample.batch 100 ++ Sample.batch 37) = 237.
Proof.
  assert (Hans : answers Scripted.upstream true 0
                   [Sample.batch 100; Sample.batch 100; Sample.batch 37]
                   [Scripted.page (Sample.batch 100); Scripted.page (Sample.batch 100);
                    Scripted.page (Sample.batch 37)] []).
  { cbn [answers]; repeat (do 3 eexists; repeat (split; [reflexivity | ])); reflexivity. }
  exact (proj1 (@listKeys_paging Scripted.upstream
                  (Sample.stubbed Missing
                     [Scripted.page (Sample.batch 100); Scripted.page (Sample.batch 100);
                      Scripted.page (Sample.batch 37)]))
           (Sample.batch 100) (Sample.batch 100) (Sample.batch 37) [] 3
           eq_refl eq_refl eq_refl Hans (le_n 3)).
Defined.

(** A guessed token, a missing token, and the right one. *)
Lemma adminAuth_guard_witness :
  server Sample.env 1 (mkIncoming AdminKeys (Some "guess") NoEntity)
    (Sample.deployed (Sample.flag true) [Sample.k1])
  = (Some (mkRes 401 (JsonBody (JObj [("success", JBool false);
                                      ("message", JStr "Unauthorized access")]))),
     Sample.deployed (Sample.flag true) [Sample.k1])
  /\ server Sample.env 1 (mkIncoming AdminDeleteAll None NoEntity)
       (Sample.deployed (Sample.flag true) [Sample.k1])
     = (Some (mkRes 401 (JsonBody (JObj [("success", JBool false);
                                         ("message", JStr "Unauthorized access")]))),
        Sample.deployed (Sample.flag true) [Sample.k1])
  /\ app Sample.env 1 (mkReq AdminDisableAll (Some "s3cret") (JObj []))
       (Sample.deployed (Sample.flag true) [Sample.k1])
     = disable_all 1 (Sample.deployed (Sample.flag true) [Sample.k1]).
Proof.
  assert (Hguess : Some "guess" <> Some "s3cret") by discriminate.
  assert (Hnone : @None string <> Some "s3cret") by discriminate.
  split; [ | split ].
  - exact (proj1 (proj1 (@adminAuth_guard KeyService.upstream Sample.env
                           (Sample.deployed (Sample.flag true) [Sample.k1]) 1
                           (mkIncoming AdminKeys (Some "guess") NoEntity) "s3cret"
                           eq_refl eq_refl)
                    (JObj []) eq_refl)
             Hguess).
  - exact (proj1 (proj1 (@adminAuth_guard KeyService.upstream Sample.env
                           (Sample.deployed (Sample.flag true) [Sample.k1]) 1
                           (mkIncoming AdminDeleteAll None NoEntity) "s3cret"
                           eq_refl eq_refl)
                    (JObj []) eq_refl)
             Hnone).
  - exact (proj2 (proj2 (proj1 (@adminAuth_guard KeyService.upstream Sample.env
                                  (Sample.deployed (Sample.flag true) [Sample.k1]) 1
                                  (mkIncoming AdminDisableAll (Some "s3cret") NoEntity)
                                  "s3cret" eq_refl eq_refl)
                           (JObj []) eq_refl)
                    eq_refl)).
Defined.

(** C6 as stated fails in two places.  On a deployment without
    [ADMIN_SECRET_TOKEN] a request without the header is not answered 401:
    delete-all runs and empties the service.  And with a secret configured,
    a request with a wrong token whose body is not JSON is answered 400 by
    the parser, which stands before the guard. *)
Lemma adminAuth_guard_counterexample :
  server (mkEnv None None) 1 (mkIncoming AdminDeleteAll None NoEntity)
    (Sample.deployed Missing [Sample.k1; Sample.k2])
  = (Some (mkRes 200 (JsonBody (JObj [("success", JBool true);
                                      ("message", JStr "Successfully deleted 2 keys")]))),
     mkWorld (U := KeyService.upstream) Missing (KeyService.mkState [] 2)
       [GetKeys true 0; DeleteKey "hash-0"; DeleteKey "hash-1"])
  /\ server Sample.env 1 (mkIncoming AdminKeys (Some "guess") (Text None))
       (Sample.deployed Missing [Sample.k1])
     = (Some (mkRes 400 ErrorPage), Sample.deployed Missing [Sample.k1]).
Proof.
  split; reflexivity.
Qed.

(** Two keys, the first of which the upstream refuses to disable: both
    requests go out and the answer carries the second listing. *)
Lemma disable_all_tolerant_witness :
  respond Sample.env 1 (Sample.admin AdminDisableAll (Some "s3cret"))
    (Sample.stubbed Missing
       [Scripted.page [Sample.k1; Sample.k2];
        Scripted.failure "Internal Server Error";
        Scripted.success;
        Scripted.page [Sample.k1; Sample.key_of "bob@example.org" "hash-1" true]])
  = (Some (mkRes 200
             (JsonBody
                (JObj [("success", JBool true);
                       ("message", JStr "Successfully processed 2 keys");
                       ("data",
                        JArr [key_value Sample.k1;
                              key_value (Sample.key_of "bob@example.org" "hash-1" true)])]))),
     mkWorld (U := Scripted.upstream) Missing []
       [GetKeys true 0; PatchKey "hash-0" true; PatchKey "hash-1" true; GetKeys true 0]).
Proof.
  exact (proj1 (@disable_all_tolerant Scripted.upstream Sample.env
                  (Sample.stubbed Missing
                     [Scripted.page [Sample.k1; Sample.k2];
                      Scripted.failure "Internal Server Error";
                      Scripted.success;
                      Scripted.page [Sample.k1;
                                     Sample.key_of "bob@example.org" "hash-1" true]])
                  1 (Sample.admin AdminDisableAll (Some "s3cret"))
                  [Sample.k1; Sample.k2]
                  (mkWorld (U := Scripted.upstream) Missing
                     [Scripted.failure "Internal Server Error";
                      Scripted.success;
                      Scripted.page [Sample.k1;
                                     Sample.key_of "bob@example.org" "hash-1" true]]
                     [GetKeys true 0])
                  [Sample.k1; Sample.key_of "bob@example.org" "hash-1" true]
                  (mkWorld (U := Scripted.upstream) Missing []
                     [GetKeys true 0; PatchKey "hash-0" true; PatchKey "hash-1" true;
                      GetKeys true 0])
                  eq_refl eq_refl eq_refl eq_refl)).
Defined.



(** C10 as stated fails on a config file that parses but does not hold a
    boolean flag: for [{}] the body has no [registrationEnabled] at all, for
    a string-valued flag the string is echoed. *)
Lemma registration_status_counterexample :
  fst (respond Sample.env 0 (mkReq RegistrationStatus None JNull)
         (Sample.deployed (Holds (JObj [])) []))
  = Some (mkRes 200 (JsonBody (JObj [])))
  /\ reports_boolean_flag
       (fst (respond Sample.env 0 (mkReq RegistrationStatus None JNull)
               (Sample.deployed (Holds (JObj [])) [])))
     = false
  /\ fst (respond Sample.env 0 (mkReq RegistrationStatus None JNull)
            (Sample.deployed (Holds (JObj [("registrationEnabled", JStr "yes")])) []))
     = Some (mkRes 200 (JsonBody (JObj [("registrationEnabled", JStr "yes")])))
  /\ reports_boolean_flag
       (fst (respond Sample.env 0 (mkReq RegistrationStatus None JNull)
               (Sample.deployed (Holds (JObj [("registrationEnabled", JStr "yes")])) [])))
     = false.
Proof.
  repeat split.
Qed.

(** C5 fails on the code.  The duplicate check lists without
    [include_disabled], so a disabled key is invisible to it: starting from
    a service that holds one key for an address, disabled, the invite for
    that address goes through and the service then holds two keys for it. *)
Theorem invite_after_disable_duplicates :
  KeyService.one_key_per_email (Sample.service [Sample.key_of Sample.ada "hash-0" true])
  /\ fst (checkExistingEmail 1 (JStr Sample.ada)
            (Sample.deployed (Sample.flag true) [Sample.key_of Sample.ada "hash-0" true]))
     = Return false
  /\ option_map status
       (fst (respond Sample.env 1 (Sample.invite_of Sample.ada)
               (Sample.deployed (Sample.flag true) [Sample.key_of Sample.ada "hash-0" true])))
     = Some 200
  /\ List.length
       (KeyService.keys_of_email Sample.ada
          (remote (snd (respond Sample.env 1 (Sample.invite_of Sample.ada)
                          (Sample.deployed (Sample.flag true)
                             [Sample.key_of Sample.ada "hash-0" true])))))
     = 2.
Proof.
  split; [ | repeat split ].
  intros email. unfold KeyService.keys_of_email, Sample.service. cbn [KeyService.keys filter].
  destruct (String.eqb _ _); cbn; lia.
Qed.

(** Every route but the status route answers for itself, here an invite
    whose body has no email at all. *)
Lemma only_status_route_throws_witness :
  thrown (fst (app Sample.env 1 (mkReq Invite None JNull)
                 (Sample.deployed (Sample.flag true) [])))
  = false.
Proof.
  assert (Hroute : route (mkReq Invite None JNull) <> RegistrationStatus) by discriminate.
  exact (@only_status_route_throws KeyService.upstream Sample.env
           (Sample.deployed (Sample.flag true) []) 1 (mkReq Invite None JNull) Hroute).
Defined.

(** A deployment without [ADMIN_SECRET_TOKEN]: the bare request goes
    through to the handler. *)
Lemma adminAuth_unset_secret_witness :
  app (mkEnv None None) 1 (Sample.admin AdminKeys None) (Sample.deployed Missing [Sample.k1])
  = admin_keys 1 (Sample.deployed Missing [Sample.k1]).
Proof.
  exact (@adminAuth_unset_secret KeyService.upstream (mkEnv None None)
           (Sample.deployed Missing [Sample.k1]) 1 (Sample.admin AdminKeys None)
           eq_refl eq_refl eq_refl).
Defined.

(** Ada, Bob, and Ada again: the third invite is turned down and each
    address keeps its one key. *)
Lemma sequential_invites_keep_one_key_witness :
  KeyService.one_key_per_email
    (remote (handle_all Sample.env 1
               [Sample.invite_of "ada@example.org"; Sample.invite_of "bob@example.org";
                Sample.invite_of "ada@example.org"]
               (Sample.deployed (Sample.flag true) []))).
Proof.
  assert (Hroutes : Forall (fun req => route req = Invite)
                      [Sample.invite_of "ada@example.org"; Sample.invite_of "bob@example.org";
                       Sample.invite_of "ada@example.org"])
    by (repeat constructor).
  assert (Hall : KeyService.all_enabled (Sample.service [])) by (intros k []).
  assert (Hone : KeyService.one_key_per_email (Sample.service []))
    by (intros address; apply Nat.le_0_l).
  assert (Hfuel : List.length (KeyService.keys (Sample.service [])) + 3 <= 1 * PAGE)
    by (apply Nat.leb_le; reflexivity).
  exact (@sequential_invites_keep_one_key Sample.env 1 _ (Sample.flag true)
           (Sample.service []) [] Hroutes Hall Hone Hfuel).
Defined.

(** An invite with an empty body. *)
Lemma invite_requires_email_witness :
  respond Sample.env 1 (mkReq Invite None (JObj []))
    (Sample.deployed (Sample.flag true) [Sample.k1])
  = (Some (mkRes 400 (JsonBody (JObj [("success", JBool false);
                                      ("message", JStr "Email is required")]))),
     Sample.deployed (Sample.flag true) [Sample.k1]).
Proof.
  exact (@invite_requires_email KeyService.upstream Sample.env
           (Sample.deployed (Sample.flag true) [Sample.k1]) 1 (mkReq Invite None (JObj []))
           [("registrationEnabled", JBool true)] [] eq_refl eq_refl eq_refl eq_refl eq_refl).
Defined.

(** A flag stored as the string ["false"] opens registration. *)
Lemma invite_gate_is_truthiness_witness :
  has_status 403
    (fst (respond Sample.env 1 (Sample.invite_of Sample.ada)
            (Sample.deployed (Holds (JObj [("registrationEnabled", JStr "false")])) [])))
  = false.
Proof.
  exact (proj2 (@invite_gate_is_truthiness KeyService.upstream Sample.env
                  (Sample.deployed (Holds (JObj [("registrationEnabled", JStr "false")])) [])
                  1 (Sample.invite_of Sample.ada) [("registrationEnabled", JStr "false")]
                  eq_refl eq_refl) eq_refl).
Defined.

(** The listing is refused with 502. *)
Lemma invite_listing_failure_witness :
  respond Sample.env 1 (Sample.invite_of Sample.ada)
    (Sample.stubbed (Sample.flag true) [Scripted.failure "Bad Gateway"])
  = (Some (mkRes 500 (JsonBody (JObj [("success", JBool false);
                                      ("message", JStr "Failed to create API key");
                                      ("error", JStr "Failed to fetch keys: Bad Gateway")]))),
     mkWorld (U := Scripted.upstream) (Sample.flag true) [] [GetKeys false 0]).
Proof.
  assert (Hne : Sample.ada <> "") by discriminate.
  exact (proj1 (@invite_listing_failure Scripted.upstream Sample.env
                  (Sample.stubbed (Sample.flag true) [Scripted.failure "Bad Gateway"]) 1
                  (Sample.invite_of Sample.ada) [("registrationEnabled", JBool true)]
                  [("email", JStr Sample.ada)] Sample.ada
                  (mkError PlainError "Failed to fetch keys: Bad Gateway")
                  (mkWorld (U := Scripted.upstream) (Sample.flag true) [] [GetKeys false 0])
                  eq_refl eq_refl eq_refl eq_refl eq_refl Hne eq_refl)).
Defined.

(** The creation is refused with a message of the upstream's own. *)
Lemma invite_creation_failure_witness :
  respond Sample.env 1 (Sample.invite_of Sample.ada)
    (Sample.stubbed (Sample.flag true)
       [Scripted.page [];
        Responded (mkResponse false "Payment Required"
                     (Some (mkPayload None JUndefined JUndefined JUndefined JUndefined
                              JUndefined (Some "limit reached"))))])
  = (Some (mkRes 500 (JsonBody (JObj [("success", JBool false);
                                      ("message", JStr "Failed to create API key");
                                      ("error", JStr "limit reached")]))),
     mkWorld (U := Scripted.upstream) (Sample.flag true) []
       [GetKeys false 0;
        PostKey "Goose Hacknight - ada@example.org" "ada-at-example.org" 5]).
Proof.
  assert (Hne : Sample.ada <> "") by discriminate.
  assert (Hm : "limit reached" <> "") by discriminate.
  assert (Hfresh : forall k : Key, In k [] ->
                     name k <> ("Goose Hacknight - " ++ Sample.ada)%string)
    by (intros k []).
  exact (proj1 (@invite_creation_failure Scripted.upstream Sample.env
                  (Sample.stubbed (Sample.flag true)
                     [Scripted.page [];
                      Responded (mkResponse false "Payment Required"
                                   (Some (mkPayload None JUndefined JUndefined JUndefined
                                            JUndefined JUndefined (Some "limit reached"))))])
                  1 (Sample.invite_of Sample.ada) [("registrationEnabled", JBool true)]
                  [("email", JStr Sample.ada)] Sample.ada []
                  (mkWorld (U := Scripted.upstream) (Sample.flag true)
                     [Responded (mkResponse false "Payment Required"
                                   (Some (mkPayload None JUndefined JUndefined JUndefined
                                            JUndefined JUndefined (Some "limit reached"))))]
                     [GetKeys false 0])
                  (mkResponse false "Payment Required"
                     (Some (mkPayload None JUndefined JUndefined JUndefined JUndefined
                              JUndefined (Some "limit reached"))))
                  (mkPayload None JUndefined JUndefined JUndefined JUndefined JUndefined
                     (Some "limit reached"))
                  [] eq_refl eq_refl eq_refl eq_refl eq_refl Hne eq_refl Hfresh
                  eq_refl eq_refl eq_refl)
           "limit reached" eq_refl Hm).
Defined.

(** The requests of a first registration. *)
Lemma invite_sends_listings_then_one_creation_witness :
  exists sent,
    calls (snd (respond Sample.env 1 (Sample.invite_of Sample.ada)
                  (Sample.deployed (Sample.flag true) [])))
    = calls (Sample.deployed (Sample.flag true) []) ++ sent
    /\ (forallb is_listing sent = true
        \/ exists listings props s,
             req_body (Sample.invite_of Sample.ada) = JObj props
             /\ own_property "email" props = JStr s
             /\ String.eqb s "" = false
             /\ sent = listings
                       ++ [PostKey ("Goose Hacknight - " ++ s) (replace_first "@" "-at-" s)
                             (credit_limit Sample.env)]
             /\ forallb is_listing listings = true).
Proof.
  exact (@invite_sends_listings_then_one_creation KeyService.upstream Sample.env
           (Sample.deployed (Sample.flag true) []) 1 (Sample.invite_of Sample.ada) eq_refl).
Defined.

(** A listing refused with 401: delete-all deletes nothing. *)
Lemma admin_listing_failure_witness :
  delete_all 1 (Sample.stubbed Missing [Scripted.failure "Unauthorized"; Scripted.success])
  = (Return (mkRes 500 (JsonBody (JObj [("success", JBool false);
                                        ("message", JStr "Failed to delete keys");
                                        ("error", JStr "Failed to list keys: Unauthorized")]))),
     mkWorld (U := Scripted.upstream) Missing [Scripted.success] [GetKeys true 0]).
Proof.
  exact (proj1 (proj2 (@admin_listing_failure Scripted.upstream
                         (Sample.stubbed Missing
                            [Scripted.failure "Unauthorized"; Scripted.success]) 1
                         (mkError PlainError "Failed to list keys: Unauthorized")
                         (mkWorld (U := Scripted.upstream) Missing [Scripted.success]
                            [GetKeys true 0])
                         eq_refl))).
Defined.

(** Both keys are disabled, the second listing is refused. *)
Lemma disable_all_relisting_failure_witness :
  disable_all 1
    (Sample.stubbed Missing
       [Scripted.page [Sample.k1; Sample.k2]; Scripted.success; Scripted.success;
        Scripted.failure "Service Unavailable"])
  = (Return (mkRes 500
               (JsonBody
                  (JObj [("success", JBool false);
                         ("message", JStr "Failed to disable keys");
                         ("error", JStr "Failed to list keys: Service Unavailable")]))),
     mkWorld (U := Scripted.upstream) Missing []
       [GetKeys true 0; PatchKey "hash-0" true; PatchKey "hash-1" true; GetKeys true 0]).
Proof.
  exact (proj1 (@disable_all_relisting_failure Scripted.upstream
                  (Sample.stubbed Missing
                     [Scripted.page [Sample.k1; Sample.k2]; Scripted.success;
                      Scripted.success; Scripted.failure "Service Unavailable"])
                  1 [Sample.k1; Sample.k2]
                  (mkWorld (U := Scripted.upstream) Missing
                     [Scripted.success; Scripted.success;
                      Scripted.failure "Service Unavailable"] [GetKeys true 0])
                  (mkError PlainError "Failed to list keys: Service Unavailable")
                  (mkWorld (U := Scripted.upstream) Missing []
                     [GetKeys true 0; PatchKey "hash-0" true; PatchKey "hash-1" true;
                      GetKeys true 0])
                  eq_refl eq_refl)).
Defined.

(** Three rounds against the upstream of full pages. *)
Lemma listKeys_endless_witness :
  fst (listKeys 3 (mkWorld (U := Endless.upstream) Missing tt [])) = Pending
  /\ calls (snd (listKeys 3 (mkWorld (U := Endless.upstream) Missing tt [])))
     = [GetKeys true 0; GetKeys true 100; GetKeys true 200]
  /\ fst (admin_keys 3 (mkWorld (U := Endless.upstream) Missing tt [])) = Pending.
Proof.
  assert (Hfull : forall (offset : nat) (u : ustate Endless.upstream),
             exists response data u',
               serve Endless.upstream (GetKeys true offset) u = (Responded response, u')
               /\ ok response = true
               /\ json response = Some data
               /\ PAGE <= List.length (data_or_empty data)).
  { intros offset u. eexists _, _, _. split; [reflexivity | ].
    split; [reflexivity | ]. split; [reflexivity | ].
    cbn [data_or_empty body_data]. unfold Endless.full_page.
    rewrite repeat_length. apply le_n. }
  exact (@listKeys_endless Endless.upstream Hfull 3
           (mkWorld (U := Endless.upstream) Missing tt [])).
Defined.

(** A config file that holds the number 1. *)
Lemma config_not_an_object_witness :
  respond Sample.env 0 (mkReq RegistrationStatus None JNull)
    (Sample.deployed (Holds (JNum "1")) [])
  = (Some (mkRes 200 (JsonBody (JObj []))), Sample.deployed (Holds (JNum "1")) [])
  /\ respond Sample.env 0 (Sample.invite_of Sample.ada)
       (Sample.deployed (Holds (JNum "1")) [])
     = (Some (mkRes 403
                (JsonBody (JObj [("success", JBool false);
                                 ("message", JStr "Registration is currently closed")]))),
        Sample.deployed (Holds (JNum "1")) []).
Proof.
  assert (Hnull : JNum "1" <> JNull) by discriminate.
  assert (Hundef : JNum "1" <> JUndefined) by discriminate.
  exact (proj2 (@config_not_an_object KeyService.upstream Sample.env
                  (Sample.deployed (Holds (JNum "1")) []) 0 None JNull
                  (Sample.invite_of Sample.ada) (JNum "1") eq_refl eq_refl eq_refl)
           Hnull Hundef).
Defined.

(** Two [@] in an address: the second stays. *)
Lemma label_replaces_first_at_witness :
  replace_first "@" "-at-" "ada@example.org@home" = "ada-at-example.org@home"
  /\ replace_first "@" "-at-" "ada" = "ada".
Proof.
  exact (@label_replaces_first_at "ada" "example.org@home" eq_refl).
Defined.

(** A service with an enabled and a disabled key. *)
Lemma admin_keys_lists_everything_witness :
  exists sent,
    admin_keys 1
      (Sample.deployed Missing [Sample.k1; Sample.key_of "bob@example.org" "hash-1" true])
    = (Return (res_json 200
                 (JObj [("data",
                         JArr (map key_value
                                 [Sample.k1;
                                  Sample.key_of "bob@example.org" "hash-1" true]))])),
       mkWorld (U := KeyService.upstream) Missing
         (Sample.service [Sample.k1; Sample.key_of "bob@example.org" "hash-1" true])
         ([] ++ sent))
    /\ forallb is_listing sent = true.
Proof.
  assert (Hfuel : List.length [Sample.k1; Sample.key_of "bob@example.org" "hash-1" true]
                  < 1 * PAGE)
    by (apply Nat.ltb_lt; reflexivity).
  exact (@admin_keys_lists_everything 1 Missing
           (Sample.service [Sample.k1; Sample.key_of "bob@example.org" "hash-1" true])
           [] Hfuel).
Defined.

(** Delete-all on a service of two keys. *)
Lemma delete_all_empties_service_witness :
  remote (snd (delete_all 1 (Sample.deployed Missing [Sample.k1; Sample.k2])))
  = KeyService.mkState [] 2
  /\ fst (delete_all 1 (Sample.deployed Missing [Sample.k1; Sample.k2]))
     = Return (mkRes 200 (JsonBody (JObj [("success", JBool true);
                                          ("message", JStr "Successfully deleted 2 keys")]))).
Proof.
  assert (Hfuel : List.length [Sample.k1; Sample.k2] < 1 * PAGE)
    by (apply Nat.ltb_lt; reflexivity).
  assert (Hnodup : NoDup (map hash [Sample.k1; Sample.k2])).
  { repeat constructor; cbn; intuition discriminate. }
  pose proof (@delete_all_empties_service 1 Missing (Sample.service [Sample.k1; Sample.k2])
                [] Hfuel) as Hrun.
  exact (conj (proj1 Hrun) (proj2 Hrun Hnodup)).
Defined.

(** Disable-all on a service of two keys. *)
Lemma disable_all_disables_everything_witness :
  exists sent,
    disable_all 1 (Sample.deployed Missing [Sample.k1; Sample.k2])
    = (Return (res_json 200
                 (JObj [("success", JBool true);
                        ("message", JStr "Successfully processed 2 keys");
                        ("data",
                         JArr (map key_value
                                 [Sample.key_of "ada@example.org" "hash-0" true;
                                  Sample.key_of "bob@example.org" "hash-1" true]))])),
       mkWorld (U := KeyService.upstream) Missing
         (KeyService.mkState [Sample.key_of "ada@example.org" "hash-0" true;
                              Sample.key_of "bob@example.org" "hash-1" true] 2)
         ([] ++ sent))
    /\ all_disabled
         (KeyService.mkState [Sample.key_of "ada@example.org" "hash-0" true;
                              Sample.key_of "bob@example.org" "hash-1" true] 2).
Proof.
  assert (Hfuel : List.length [Sample.k1; Sample.k2] < 1 * PAGE)
    by (apply Nat.ltb_lt; reflexivity).
  exact (@disable_all_disables_everything 1 Missing (Sample.service [Sample.k1; Sample.k2])
           [] Hfuel).
Defined.

(** Ada's key has been disabled: she is given a second one. *)
Lemma every_address_can_register_again_witness :
  has_status 200
    (fst (respond Sample.env 1 (Sample.invite_of Sample.ada)
            (Sample.deployed (Sample.flag true) [Sample.key_of Sample.ada "hash-0" true])))
  = true
  /\ List.length
       (KeyService.keys_of_email Sample.ada
          (remote (snd (respond Sample.env 1 (Sample.invite_of Sample.ada)
                          (Sample.deployed (Sample.flag true)
                             [Sample.key_of Sample.ada "hash-0" true])))))
     = 2.
Proof.
  assert (Hne : Sample.ada <> "") by discriminate.
  assert (Hall : all_disabled (Sample.service [Sample.key_of Sample.ada "hash-0" true])).
  { intros k [<- | []]. reflexivity. }
  pose proof (@every_address_can_register_again Sample.env 1 (Sample.invite_of Sample.ada)
                (Sample.service [Sample.key_of Sample.ada "hash-0" true]) []
                [("registrationEnabled", JBool true)] [("email", JStr Sample.ada)] Sample.ada
                eq_refl eq_refl eq_refl eq_refl Hne Hall (le_n 1)) as Hrun.
  exact (conj (proj1 Hrun) (proj2 (proj2 Hrun))).
Defined.

(** Ada registers twice in a row. *)
Lemma second_invite_is_turned_down_witness :
  has_status 200
    (fst (respond Sample.env 1 (Sample.invite_of Sample.ada)
            (Sample.deployed (Sample.flag true) [])))
  = true
  /\ fst (respond Sample.env 1 (Sample.invite_of Sample.ada)
            (snd (respond Sample.env 1 (Sample.invite_of Sample.ada)
                    (Sample.deployed (Sample.flag true) []))))
     = Some (mkRes 400
               (JsonBody
                  (JObj [("success", JBool false);
                         ("message",
                          JStr "This email has already been registered for the hackathon.")]))).
Proof.
  assert (Hne : Sample.ada <> "") by discriminate.
  assert (Hfresh : forall k : Key, In k (KeyService.visible false (Sample.service [])) ->
                     name k <> ("Goose Hacknight - " ++ Sample.ada)%string)
    by (intros k []).
  assert (Hfuel : S (List.length (KeyService.visible false (Sample.service []))) < 1 * PAGE)
    by (apply Nat.ltb_lt; reflexivity).
  pose proof (@second_invite_is_turned_down Sample.env 1 (Sample.invite_of Sample.ada)
                (Sample.service []) [] [("registrationEnabled", JBool true)]
                [("email", JStr Sample.ada)] Sample.ada
                eq_refl eq_refl eq_refl eq_refl Hne Hfresh Hfuel) as Hrun.
  exact (conj (proj1 Hrun) (proj1 (proj2 Hrun))).
Defined.

(** A full page in answer to the one listing: a hundred deletions and no
    second listing. *)
Lemma earlier_delete_all_lists_once_witness :
  snd (Earlier.delete_all (GetKeys false 0)
         (Sample.stubbed Missing (Scripted.page (Sample.batch 100) :: repeat Scripted.success 100)))
  = mkWorld (U := Scripted.upstream) Missing []
      (GetKeys false 0 :: map deletion (Sample.batch 100)).
Proof.
  exact (proj1 (proj1 (@earlier_delete_all_lists_once Scripted.upstream
                         (Sample.stubbed Missing
                            (Scripted.page (Sample.batch 100) :: repeat Scripted.success 100))
                         (GetKeys false 0)
                         (mkResponse true "OK"
                            (Some (mkPayload (Some (Sample.batch 100)) JUndefined JUndefined
                                     JUndefined JUndefined JUndefined None)))
                         (mkPayload (Some (Sample.batch 100)) JUndefined JUndefined
                            JUndefined JUndefined JUndefined None)
                         (repeat Scripted.success 100) eq_refl eq_refl eq_refl)
                  (Sample.batch 100) eq_refl)).
Defined.
